(** * Notification relay: connection registry, normaliser, delivery engine

    Shallow embedding of
      - [NotificationService]   (services/notification.service.ts),
      - [NotificationGateway]   (gateways/notification.gateway.ts),
      - [WebhookController]     (controllers/webhook.controller.ts),
      - the two DTO classes and the notification interfaces.

    JavaScript values are modelled as follows.  A [string] is a Rocq
    [string]; an optional field ([x?: T], or a value that may be
    [undefined]/[null]) is an [option]; an array is a [list]; a [Date] is
    the number of milliseconds since the epoch; a [Map] is an association
    list kept in insertion order (the order in which [keys()] and
    [values()] enumerate it).  A call that may throw returns a [Completion].
    The service's only mutable field, [connectedClients], is threaded
    explicitly; every invocation of the injected [emitFunction] is recorded
    in a log, so that statements about "which sends were attempted" can be
    made. *)

From Stdlib Require Import List String Ascii Bool Arith ZArith Lia.
Import ListNotations.
Open Scope string_scope.

Set Implicit Arguments.

(* ================================================================= *)
(** ** JavaScript preliminaries *)

(** Result of evaluating a call: it returns a value or throws. *)
Inductive Completion (E A : Type) : Type :=
| Returns (a : A)
| Throws (e : E).
Arguments Returns {E A} a.
Arguments Throws {E A} e.

Definition returned {E A} (c : Completion E A) : bool :=
  match c with Returns _ => true | Throws _ => false end.

(** Truthiness of a possibly-undefined string: [undefined], [null] and the
    empty string are falsy. *)
Definition truthy (v : option string) : bool :=
  match v with
  | Some s => negb (s =? "")
  | None => false
  end.

(** [a || b] on possibly-undefined strings, with a defined default. *)
Definition orDefault (v : option string) (d : string) : string :=
  match v with
  | Some s => if s =? "" then d else s
  | None => d
  end.

(** [haystack.includes(needle)]. *)
Fixpoint includes (needle haystack : string) : bool :=
  if String.prefix needle haystack then true
  else match haystack with
       | EmptyString => false
       | String _ rest => includes needle rest
       end.

(** [s.split(sep)] for a one-character separator: the pieces between the
    separators, empty pieces included; the empty string gives one empty
    piece. *)
Fixpoint split (sep : ascii) (s : string) : list string :=
  match s with
  | EmptyString => [EmptyString]
  | String c rest =>
      if Ascii.eqb c sep then EmptyString :: split sep rest
      else match split sep rest with
           | piece :: pieces => String c piece :: pieces
           | [] => [String c EmptyString]
           end
  end.

(** Opaque producer data: a JSON value. *)
#[local] Unset Elimination Schemes.
Inductive JsValue : Type :=
| JNull
| JBool (b : bool)
| JNumber (z : Z)
| JString (s : string)
| JArray (items : list JsValue)
| JObject (fields : list (string * JsValue)).
#[local] Set Elimination Schemes.

(** [Record<string, any>]. *)
Definition JsRecord : Type := list (string * JsValue).

(** *** [Map<string, V>], in insertion order *)
Module JsMap.
Section WithValue.
Variable V : Type.

Definition t : Type := list (string * V).

Definition empty : t := [].

(** [m.get(k)] *)
Fixpoint get (k : string) (m : t) : option V :=
  match m with
  | [] => None
  | (k', v) :: rest => if k' =? k then Some v else get k rest
  end.

(** [m.set(k, v)]: an existing key keeps its position, a new key is
    appended. *)
Fixpoint set (k : string) (v : V) (m : t) : t :=
  match m with
  | [] => [(k, v)]
  | (k', v') :: rest =>
      if k' =? k then (k, v) :: rest else (k', v') :: set k v rest
  end.

(** [m.delete(k)] *)
Fixpoint delete (k : string) (m : t) : t :=
  match m with
  | [] => []
  | (k', v') :: rest =>
      if k' =? k then delete k rest else (k', v') :: delete k rest
  end.

(** [Array.from(m.keys())], [Array.from(m.values())], [m.size] *)
Definition keys (m : t) : list string := map fst m.
Definition values (m : t) : list V := map snd m.
Definition size (m : t) : nat := List.length m.
End WithValue.
End JsMap.

(** *** [Date] and [Date.prototype.toISOString] *)
Module JsDate.
(** Milliseconds since 1970-01-01T00:00:00Z. *)
Definition t : Type := Z.

Definition digit (n : Z) : ascii := ascii_of_nat (48 + Z.to_nat (n mod 10)).

(** [n] printed in [w] decimal digits, zero padded. *)
Fixpoint pad (w : nat) (n : Z) : string :=
  match w with
  | O => EmptyString
  | S w' => pad w' (n / 10) ++ String (digit n) EmptyString
  end.

(** Civil date of a day number (days since the epoch), proleptic
    Gregorian calendar. *)
Definition civil (days : Z) : Z * Z * Z :=
  let z := (days + 719468)%Z in
  let era := (z / 146097)%Z in
  let doe := (z - era * 146097)%Z in
  let yoe := ((doe - doe / 1460 + doe / 36524 - doe / 146096) / 365)%Z in
  let doy := (doe - (365 * yoe + yoe / 4 - yoe / 100))%Z in
  let mp := ((5 * doy + 2) / 153)%Z in
  let d := (doy - (153 * mp + 2) / 5 + 1)%Z in
  let m := (if (mp <? 10)%Z then mp + 3 else mp - 9)%Z in
  let y := (yoe + era * 400 + (if (m <=? 2)%Z then 1 else 0))%Z in
  (y, m, d).

(** [YYYY-MM-DDTHH:mm:ss.sssZ]; the four-digit form, which is the one
    the built-in produces for years 0 to 9999. *)
Definition toISOString (d : t) : string :=
  let days := (d / 86400000)%Z in
  let ms := (d mod 86400000)%Z in
  let '(y, m, dd) := civil days in
  pad 4 y ++ "-" ++ pad 2 m ++ "-" ++ pad 2 dd ++ "T"
    ++ pad 2 (ms / 3600000) ++ ":" ++ pad 2 (ms / 60000 mod 60) ++ ":"
    ++ pad 2 (ms / 1000 mod 60) ++ "." ++ pad 3 (ms mod 1000) ++ "Z".
End JsDate.

Unset Implicit Arguments.
Open Scope list_scope.

(* ================================================================= *)
(** ** Data model (interfaces/notification.interface.ts and the DTOs) *)

Record ConnectedClient : Type := {
  socketId : string;
  userId : string;
  connectedAt : JsDate.t
}.

(** [WebhookNotificationDto].  [priority] is typed
    ['low' | 'normal' | 'high'] in the source; types are erased at run
    time, so the field holds whatever string the request body carried. *)
Record WebhookNotificationDto : Type := {
  wh_type : string;
  wh_message : string;
  wh_targetUsers : option (list string);
  wh_data : option JsRecord;
  wh_priority : option string
}.

(** The class-validator rule on [priority]:
    [@IsOptional() @IsString() @IsIn(['low', 'normal', 'high'])]. *)
Definition priorityValues : list string := ["low"; "normal"; "high"].

Definition isIn (s : string) (allowed : list string) : bool :=
  existsb (String.eqb s) allowed.

Definition priorityIsValid (dto : WebhookNotificationDto) : bool :=
  match wh_priority dto with
  | None => true
  | Some p => isIn p priorityValues
  end.

Record BaseNotification : Type := {
  bn_id : string;
  bn_type : string;
  bn_message : string;
  bn_data : option JsRecord;
  bn_priority : string;
  bn_timestamp : JsDate.t;
  bn_source : string
}.

(** [WebSocketNotificationDto]: the payload handed to the send primitive. *)
Record WebSocketNotificationDto : Type := {
  id : string;
  type : string;
  message : string;
  data : option JsRecord;
  priority : string;
  timestamp : string;
  source : string
}.

(** What a send primitive may throw: a plain [new Error(message)], or the
    gateway's [WebSocketNotificationException(message, { socketId, reason })]. *)
Inductive Thrown : Type :=
| Error (msg : string)
| WebSocketNotificationException (msg sid reason : string).

(* ================================================================= *)
(** ** NotificationService *)

(** [connectedClients = new Map<string, ConnectedClient>()] *)
Definition Registry : Type := JsMap.t ConnectedClient.

(** The injected [emitFunction].  It is a closure: besides returning or
    throwing it may act on the service it closes over (the gateway's does),
    so it transforms the registry. *)
Definition EmitFunction : Type :=
  string -> WebSocketNotificationDto -> Registry ->
  Completion Thrown unit * Registry.

(** One recorded invocation of the [emitFunction]. *)
Record EmitCall : Type := {
  call_socketId : string;
  call_payload : WebSocketNotificationDto;
  call_ok : bool
}.

(** State of the service together with the log of send attempts. *)
Record World : Type := {
  connectedClients : Registry;
  emitCalls : list EmitCall
}.

Definition addClient (now : JsDate.t) (userId socketId : string)
    (reg : Registry) : Registry :=
  let client := {| socketId := socketId; userId := userId;
                   connectedAt := now |} in
  JsMap.set socketId client reg.

Definition removeClient (socketId : string) (reg : Registry) : Registry :=
  match JsMap.get socketId reg with
  | Some _ => JsMap.delete socketId reg
  | None => reg
  end.

(** [[...new Set(xs)]]: first occurrences, in order. *)
Fixpoint uniqueInOrder (seen xs : list string) : list string :=
  match xs with
  | [] => []
  | x :: rest =>
      if existsb (String.eqb x) seen then uniqueInOrder seen rest
      else x :: uniqueInOrder (x :: seen) rest
  end.

Definition getConnectedUsers (reg : Registry) : list string :=
  uniqueInOrder [] (map userId (JsMap.values reg)).

Definition getConnectedClients (reg : Registry) : list ConnectedClient :=
  JsMap.values reg.

Definition getClientsByUserId (uid : string) (reg : Registry)
    : list ConnectedClient :=
  filter (fun client => userId client =? uid) (JsMap.values reg).

Definition isUserConnected (uid : string) (reg : Registry) : bool :=
  (0 <? List.length (getClientsByUserId uid reg))%nat.

Definition getConnectedClientsCount (reg : Registry) : nat :=
  JsMap.size reg.

(** [uuid] stands for the value of [uuidv4()] and [now] for [new Date()]. *)
Definition processWebhookNotification (uuid : string) (now : JsDate.t)
    (webhookNotification : WebhookNotificationDto) : BaseNotification :=
  {| bn_id := uuid;
     bn_type := wh_type webhookNotification;
     bn_message := wh_message webhookNotification;
     bn_data := wh_data webhookNotification;
     bn_priority := orDefault (wh_priority webhookNotification) "normal";
     bn_timestamp := now;
     bn_source := "webhook" |}.

Definition transformToWebSocketDto (notification : BaseNotification)
    : WebSocketNotificationDto :=
  {| id := bn_id notification;
     type := bn_type notification;
     message := bn_message notification;
     data := bn_data notification;
     priority := bn_priority notification;
     timestamp := JsDate.toISOString (bn_timestamp notification);
     source := bn_source notification |}.

(** The body shared by both delivery loops:
    [try { emitFunction(id, dto); successfulSocketIds.push(id) } catch { log }]. *)
Definition tryEmit (emitFunction : EmitFunction) (sid : string)
    (dto : WebSocketNotificationDto) (successful : list string) (w : World)
    : list string * World :=
  let '(outcome, reg') := emitFunction sid dto (connectedClients w) in
  let ok := returned outcome in
  (if ok then successful ++ [sid] else successful,
   {| connectedClients := reg';
      emitCalls := emitCalls w ++
        [{| call_socketId := sid; call_payload := dto; call_ok := ok |}] |}).

(** [ids.forEach(id => tryEmit ...)] over an array fixed before the loop. *)
Fixpoint forEachSocket (emitFunction : EmitFunction)
    (dto : WebSocketNotificationDto) (ids : list string)
    (successful : list string) (w : World) : list string * World :=
  match ids with
  | [] => (successful, w)
  | sid :: rest =>
      let '(successful', w') := tryEmit emitFunction sid dto successful w in
      forEachSocket emitFunction dto rest successful' w'
  end.

Definition broadcastNotification (notification : BaseNotification)
    (emitFunction : EmitFunction) (w : World) : list string * World :=
  let allSocketIds := JsMap.keys (connectedClients w) in
  let websocketNotification := transformToWebSocketDto notification in
  forEachSocket emitFunction websocketNotification allSocketIds [] w.

(** [userIds.forEach(userId => getClientsByUserId(userId).forEach(...))]:
    the clients of a user are looked up when that user's turn comes. *)
Fixpoint forEachUser (emitFunction : EmitFunction)
    (dto : WebSocketNotificationDto) (userIds : list string)
    (successful : list string) (w : World) : list string * World :=
  match userIds with
  | [] => (successful, w)
  | uid :: rest =>
      let userClients := getClientsByUserId uid (connectedClients w) in
      let '(successful', w') :=
        forEachSocket emitFunction dto (map socketId userClients)
          successful w in
      forEachUser emitFunction dto rest successful' w'
  end.

Definition sendToUsers (notification : BaseNotification)
    (userIds : list string) (emitFunction : EmitFunction) (w : World)
    : list string * World :=
  let websocketNotification := transformToWebSocketDto notification in
  forEachUser emitFunction websocketNotification userIds [] w.

(* ================================================================= *)
(** ** NotificationGateway *)

(** A socket held by the socket.io server.  [emitError] is [Some msg] when
    [socket.emit] throws an error with that message, [None] when it
    returns. *)
Record ServerSocket : Type := {
  emitError : option string
}.

(** [this.server.sockets], read as a [Map<string, Socket>]. *)
Definition Server : Type := JsMap.t ServerSocket.

(** The connecting client, as far as [handleConnection] reads it. *)
Record Handshake : Type := {
  headers_authorization : option string;
  auth_token : option string
}.

Record ClientSocket : Type := {
  client_id : string;
  handshake : Handshake
}.

(** What [handleConnection] does to the client socket, in program order. *)
Inductive ClientEffect : Type :=
| EmitError (msg sid stamp code : string)
| EmitConnected (msg sid uid stamp : string) (authenticated : bool)
| SetDataUserId (uid : string)
| JoinRoom (room : string)
| Disconnect (close : bool).

(** Payload of a verified token; [jwt_id] is [payload.id]. *)
Record JwtPayload : Type := {
  jwt_id : option string
}.

(** [jwtService.verify]: throws, or returns a payload (possibly
    [null]/[undefined]). *)
Definition JwtVerify : Type := string -> Completion string (option JwtPayload).

(** A JavaScript error as the controller's [catch] inspects it. *)
Record JsError : Type := {
  err_name : string;
  err_status : option nat;
  err_message : string
}.

(** Result of [getConnectionStats]. *)
Record ConnectionStats : Type := {
  totalConnections : nat;
  connectedUsers : list string;
  anonymousConnections : nat
}.

Module NotificationGateway.

Definition extractToken (client : ClientSocket) : option string :=
  let token := headers_authorization (handshake client) in
  let token :=
    if negb (truthy token) && truthy (auth_token (handshake client))
    then auth_token (handshake client) else token in
  let token :=
    match token with
    | Some t =>
        if truthy token && String.prefix "Bearer " t
        then Some (String.substring 7 (String.length t - 7) t)
        else token
    | None => token
    end in
  if truthy token then token else None.

Definition authenticationRequired (client : ClientSocket) (now : JsDate.t)
    : list ClientEffect :=
  [EmitError "Connection failed" (client_id client)
     (JsDate.toISOString now) "AUTHENTICATION_REQUIRED";
   Disconnect true].

(** The socket operations ([emit], [join], [disconnect]) are recorded as
    effects and taken not to throw. *)
Definition handleConnection (verify : JwtVerify) (now : JsDate.t)
    (client : ClientSocket) (reg : Registry)
    : list ClientEffect * Registry :=
  match extractToken client with
  | None => (authenticationRequired client now, reg)
  | Some token =>
      match verify token with
      | Returns (Some payload) =>
          match jwt_id payload with
          | Some uid =>
              if truthy (Some uid) then
                ([SetDataUserId uid;
                  EmitConnected
                    "Successfully connected to notification service"
                    (client_id client) uid (JsDate.toISOString now) true;
                  JoinRoom ("user-" ++ uid)%string],
                 addClient now uid (client_id client) reg)
              else (authenticationRequired client now, reg)
          | None => (authenticationRequired client now, reg)
          end
      | Returns None => (authenticationRequired client now, reg)
      | Throws _ => (authenticationRequired client now, reg)
      end
  end.

Definition handleDisconnect (client : ClientSocket) (reg : Registry)
    : Registry :=
  removeClient (client_id client) reg.

(** [emitToSocket(socketId, event, data)].  A socket that is missing is
    removed from the registry in the [else] branch and once more in the
    [catch] that the exception thrown there reaches. *)
Definition emitToSocket (server : Server) (event : string) : EmitFunction :=
  fun sid _ reg =>
    match JsMap.get sid server with
    | Some socket =>
        match emitError socket with
        | None => (Returns tt, reg)
        | Some reason =>
            (Throws (WebSocketNotificationException
                       "Timeout de notificación" sid reason),
             removeClient sid reg)
        end
    | None =>
        (Throws (WebSocketNotificationException
                   "Cliente no encontrado" sid
                   "El socket ya no existe en el registro del servidor"),
         removeClient sid (removeClient sid reg))
    end.

Definition sendToAll (server : Server) (notification : BaseNotification)
    (w : World) : Completion JsError unit * World :=
  let '(_, w') :=
    broadcastNotification notification
      (emitToSocket server "notification") w in
  (Returns tt, w').

Definition sendToUsers (server : Server) (notification : BaseNotification)
    (userIds : list string) (w : World) : Completion JsError unit * World :=
  let '(_, w') :=
    sendToUsers notification userIds
      (emitToSocket server "notification") w in
  (Returns tt, w').

Definition getConnectionStats (reg : Registry) : ConnectionStats :=
  let connectedUsers := getConnectedUsers reg in
  let totalConnections := getConnectedClientsCount reg in
  let anonymousConnections :=
    List.length
      (filter (fun client => userId client =? "anonymous")
         (getConnectedClients reg)) in
  {| totalConnections := totalConnections;
     connectedUsers :=
       filter (fun uid => negb (uid =? "anonymous")) connectedUsers;
     anonymousConnections := anonymousConnections |}.

End NotificationGateway.

(* ================================================================= *)
(** ** WebhookController *)

Inductive TargetType : Type := broadcast | targeted.

Record DeliveryInfo : Type := {
  totalClients : nat;
  deliveredTo : nat;
  targetType : TargetType;
  targetUsers : option (list string)
}.

Record WebhookResponse : Type := {
  resp_message : string;
  resp_status : string;
  notificationId : option string;
  deliveryInfo : DeliveryInfo
}.

Inductive WebhookException : Type :=
| WebhookValidationException (msg : string)
| WebhookProcessingException (msg : string)
| WebhookDeliveryException (msg : string).

Module WebhookController.

(** The [catch] block: which exception replaces the caught error. *)
Definition rethrow (error : JsError) : WebhookException :=
  if (err_name error =? "ValidationError")
     || match err_status error with Some s => Nat.eqb s 400 | None => false end
  then WebhookValidationException
         ("Invalid notification data: " ++ err_message error)%string
  else if includes "notification" (err_message error)
          || includes "processing" (err_message error)
  then WebhookProcessingException
         ("Failed to process notification: " ++ err_message error)%string
  else if includes "delivery" (err_message error)
          || includes "send" (err_message error)
  then WebhookDeliveryException
         ("Failed to deliver notification: " ++ err_message error)%string
  else WebhookProcessingException
         "An unexpected error occurred while processing the webhook".

(** [notification.targetUsers && notification.targetUsers.length > 0] *)
Definition hasTargetUsers (notification : WebhookNotificationDto) : bool :=
  match wh_targetUsers notification with
  | Some users => (0 <? List.length users)%nat
  | None => false
  end.

Definition receiveNotification (uuid : string) (now : JsDate.t)
    (server : Server) (notification : WebhookNotificationDto) (w : World)
    : Completion WebhookException WebhookResponse * World :=
  let totalConnectedClients :=
    getConnectedClientsCount (connectedClients w) in
  if Nat.eqb totalConnectedClients 0 then
    (Returns
       {| resp_message :=
            "No clients connected - notification will not be delivered";
          resp_status := "error";
          notificationId := None;
          deliveryInfo := {| targetType := broadcast;
                             totalClients := 0;
                             deliveredTo := 0;
                             targetUsers := None |} |},
     w)
  else
    let processedNotification :=
      processWebhookNotification uuid now notification in
    let success (w' : World) (delivered : nat) (tt : TargetType) :=
      (Returns
         {| resp_message :=
              "Notification received and processed successfully";
            resp_status := "success";
            notificationId := Some (bn_id processedNotification);
            deliveryInfo :=
              {| totalClients := totalConnectedClients;
                 deliveredTo := delivered;
                 targetType := tt;
                 targetUsers :=
                   match tt with
                   | targeted => wh_targetUsers notification
                   | broadcast => None
                   end |} |},
       w') in
    if hasTargetUsers notification then
      let users :=
        match wh_targetUsers notification with
        | Some users => users
        | None => []
        end in
      let connectedTargetUsers :=
        filter (fun uid => isUserConnected uid (connectedClients w)) users in
      match NotificationGateway.sendToUsers server processedNotification
              users w with
      | (Throws error, w') => (Throws (rethrow error), w')
      | (Returns _, w') =>
          let delivered :=
            fold_left
              (fun count uid =>
                 count + List.length
                           (getClientsByUserId uid (connectedClients w')))
              connectedTargetUsers 0 in
          success w' delivered targeted
      end
    else
      match NotificationGateway.sendToAll server processedNotification w with
      | (Throws error, w') => (Throws (rethrow error), w')
      | (Returns _, w') => success w' totalConnectedClients broadcast
      end.

End WebhookController.

(* ================================================================= *)
(** ** WebhookAuthGuard *)

(** [WebhookAuthenticationException(message, reason)], HTTP 401. *)
Record WebhookAuthenticationException : Type := {
  auth_message : string;
  auth_reason : string
}.

Module WebhookAuthGuard.

(** [const [type, token] = authHeader.split(' ')]: the first two pieces,
    the second possibly missing. *)
Definition extractTokenFromHeader (authHeader : string) : option string :=
  match split " " authHeader with
  | type :: token :: _ =>
      if negb (type =? "Bearer") || negb (truthy (Some token)) then None
      else Some token
  | _ => None
  end.

(** [authHeader] is [request.headers.authorization]; [webhookToken] is the
    configured [WEBHOOK_API_TOKEN]. *)
Definition canActivate (webhookToken authHeader : option string)
    : Completion WebhookAuthenticationException bool :=
  match authHeader with
  | Some header =>
      if negb (truthy authHeader) then
        Throws {| auth_message := "Authorization header is required";
                  auth_reason := "missing_auth_header" |}
      else
        match extractTokenFromHeader header with
        | None =>
            Throws {| auth_message := "Invalid authorization header format";
                      auth_reason := "invalid_header_format" |}
        | Some token =>
            match webhookToken with
            | Some configured =>
                if negb (truthy webhookToken) then
                  Throws {| auth_message := "Webhook token not configured";
                            auth_reason := "server_configuration_error" |}
                else if negb (token =? configured) then
                  Throws {| auth_message := "Invalid webhook token";
                            auth_reason := "invalid_token" |}
                else Returns true
            | None =>
                Throws {| auth_message := "Webhook token not configured";
                          auth_reason := "server_configuration_error" |}
            end
        end
  | None =>
      Throws {| auth_message := "Authorization header is required";
                auth_reason := "missing_auth_header" |}
  end.

End WebhookAuthGuard.

(* ================================================================= *)
(** ** Vocabulary for the statements *)

(** The registry as the service builds it: socket ids are the keys of a
    [Map] (hence distinct), and each entry was stored by [addClient] under
    its own [socketId]. *)
Definition wellFormed (reg : Registry) : Prop :=
  NoDup (JsMap.keys reg) /\
  Forall (fun entry => socketId (snd entry) = fst entry) reg.

(** Socket ids of the connections registered under [uid]. *)
Definition socketsOf (uid : string) (reg : Registry) : list string :=
  map socketId (getClientsByUserId uid reg).

(** Socket ids carried by the registered clients. *)
Definition registeredSockets (reg : Registry) : list string :=
  map socketId (JsMap.values reg).

(** Classes of send primitives: one that returns normally on the given
    socket ids, one that leaves the registry as it is on them, one that
    returns on all inputs, and one that never adds or alters an entry. *)
Definition succeedsOn (ids : list string) (emit : EmitFunction) : Prop :=
  forall sid dto reg, In sid ids -> fst (emit sid dto reg) = Returns tt.

Definition preservesOn (ids : list string) (emit : EmitFunction) : Prop :=
  forall sid dto reg, In sid ids -> snd (emit sid dto reg) = reg.

Definition alwaysSucceeds (emit : EmitFunction) : Prop :=
  forall sid dto reg, fst (emit sid dto reg) = Returns tt.

Definition onlyEvicts (emit : EmitFunction) : Prop :=
  forall sid dto reg, incl (snd (emit sid dto reg)) reg.

(** The send primitive of the service's unit tests: a function that throws
    [new Error('Emit failed')] on the listed sockets, returns on the others
    and does not touch the service. *)
Definition mockEmitFunction (failing : list string) : EmitFunction :=
  fun sid _ reg =>
    if isIn sid failing then (Throws (Error "Emit failed"), reg)
    else (Returns tt, reg).

(** Whether the gateway's [emitToSocket] throws for a socket id. *)
Definition sendFails (server : Server) (sid : string) : bool :=
  match JsMap.get sid server with
  | Some socket =>
      match emitError socket with Some _ => true | None => false end
  | None => true
  end.

(** A server on which exactly the listed sockets exist and emit normally. *)
Definition serverWith (ids : list string) : Server :=
  map (fun sid => (sid, {| emitError := None |})) ids.

(** Number of occurrences of a socket id among logged send attempts. *)
Definition attemptsOn (sid : string) (calls : list EmitCall) : nat :=
  count_occ string_dec (map call_socketId calls) sid.

Definition freshWorld (reg : Registry) : World :=
  {| connectedClients := reg; emitCalls := [] |}.

(** The registry of the scenarios: c1 and c3 belong to alice, c2 to bob. *)
Definition scenarioRegistry : Registry :=
  addClient 3000%Z "alice" "c3"
    (addClient 2000%Z "bob" "c2"
       (addClient 1000%Z "alice" "c1" (JsMap.empty ConnectedClient))).

Definition scenarioUuid : string := "7f1c0a52-0000-4000-8000-000000000001".
Definition scenarioNow : JsDate.t := 1700000000000%Z.

(** Producer requests used as concrete inputs. *)
Definition request (targets : option (list string)) (prio : option string)
    : WebhookNotificationDto :=
  {| wh_type := "info"; wh_message := "hi"; wh_targetUsers := targets;
     wh_data := None; wh_priority := prio |}.

Definition scenarioNotification : BaseNotification :=
  processWebhookNotification scenarioUuid scenarioNow (request None None).

(** Connecting clients used as concrete inputs. *)
Definition clientWith (header token : option string) : ClientSocket :=
  {| client_id := "c9";
     handshake := {| headers_authorization := header;
                     auth_token := token |} |}.

(** A verifier that accepts exactly the token [good-token], as issued to
    user [alice]. *)
Definition verifyAlice : JwtVerify :=
  fun token =>
    if token =? "good-token"
    then Returns (Some {| jwt_id := Some "alice" |})
    else Throws "invalid signature".

(** The entries of the registry whose socket the gateway can still send
    to. *)
Definition liveEntries (server : Server) (reg : Registry) : Registry :=
  filter (fun entry => negb (sendFails server (fst entry))) reg.

(** A string without the given character. *)
Fixpoint lacks (c : ascii) (s : string) : bool :=
  match s with
  | EmptyString => true
  | String c' rest => negb (Ascii.eqb c' c) && lacks c rest
  end.

(** Number of logged send attempts that returned normally. *)
Definition successes (calls : list EmitCall) : nat :=
  List.length (filter call_ok calls).

(** The socket ids under which the registry holds a client of [uid]:
    the keys of the entries whose client carries that user id. *)
Definition connectionsOf (uid : string) (reg : Registry) : list string :=
  map fst (filter (fun entry => userId (snd entry) =? uid) reg).

(** The registry left by applying the send primitive to the given socket
    ids one after the other. *)
Definition effectsOf (emit : EmitFunction) (dto : WebSocketNotificationDto)
    (ids : list string) (reg : Registry) : Registry :=
  fold_left (fun r sid => snd (emit sid dto r)) ids reg.

(** A send primitive that returns normally and forgets the connection it
    has served. *)
Definition sendOnce : EmitFunction :=
  fun sid _ reg => (Returns tt, removeClient sid reg).

(** Well-formedness of a concrete registry, by evaluation. *)
Ltac wellFormed_by_evaluation :=
  split; [repeat constructor; simpl; intuition discriminate
         | repeat constructor].

(* ================================================================= *)
(** ** Facts about [Map] *)

Section JsMapFacts.
Variable V : Type.
Implicit Types (m : JsMap.t V) (k : string) (v : V).

Lemma get_none_iff k m :
  JsMap.get k m = None <-> ~ In k (JsMap.keys m).
Proof.
  induction m as [|[k' v'] rest IH]; simpl.
  - tauto.
  - destruct (String.eqb_spec k' k) as [->|Hne].
    + split; [discriminate | intros H; exfalso; apply H; now left].
    + rewrite IH. split.
      * intros H [E|I]; [now apply Hne | now apply H].
      * intros H I. apply H. now right.
Qed.

Lemma get_some_in k v m :
  JsMap.get k m = Some v -> In (k, v) m.
Proof.
  induction m as [|[k' v'] rest IH]; simpl; [discriminate|].
  destruct (String.eqb_spec k' k) as [->|Hne].
  - intros [= ->]. now left.
  - intros H. right. now apply IH.
Qed.

Lemma in_get k v m :
  NoDup (JsMap.keys m) -> In (k, v) m -> JsMap.get k m = Some v.
Proof.
  induction m as [|[k' v'] rest IH]; simpl; [tauto|].
  intros Hnd [E|I].
  - injection E as -> ->. now rewrite String.eqb_refl.
  - inversion Hnd as [|? ? Hnot Hrest]; subst.
    destruct (String.eqb_spec k' k) as [->|Hne].
    + exfalso. apply Hnot. change (In (fst (k, v)) (map fst rest)).
      now apply in_map.
    + now apply IH.
Qed.

Lemma delete_absent k m :
  ~ In k (JsMap.keys m) -> JsMap.delete k m = m.
Proof.
  induction m as [|[k' v'] rest IH]; simpl; [reflexivity|].
  intros H. destruct (String.eqb_spec k' k) as [->|Hne].
  - exfalso. apply H. now left.
  - f_equal. apply IH. intros I. apply H. now right.
Qed.

Lemma keys_delete k m :
  JsMap.keys (JsMap.delete k m)
  = filter (fun k' => negb (k' =? k)) (JsMap.keys m).
Proof.
  induction m as [|[k' v'] rest IH]; simpl; [reflexivity|].
  destruct (k' =? k); simpl; [exact IH | now rewrite <- IH].
Qed.

Lemma delete_incl k m : incl (JsMap.delete k m) m.
Proof.
  induction m as [|[k' v'] rest IH]; simpl; [apply incl_refl|].
  destruct (k' =? k).
  - now apply incl_tl.
  - apply incl_cons; [now left | now apply incl_tl].
Qed.

Lemma delete_delete k m :
  JsMap.delete k (JsMap.delete k m) = JsMap.delete k m.
Proof.
  apply delete_absent. rewrite keys_delete, filter_In.
  intros [_ H]. now rewrite String.eqb_refl in H.
Qed.

Lemma get_delete_other k k' m :
  k <> k' -> JsMap.get k' (JsMap.delete k m) = JsMap.get k' m.
Proof.
  intros Hne. induction m as [|[k0 v0] rest IH]; simpl; [reflexivity|].
  destruct (String.eqb_spec k0 k) as [->|Hk].
  - rewrite IH. destruct (String.eqb_spec k k'); [contradiction|reflexivity].
  - simpl. now rewrite IH.
Qed.

Lemma keys_set_new k v m :
  ~ In k (JsMap.keys m) -> JsMap.keys (JsMap.set k v m) = JsMap.keys m ++ [k].
Proof.
  induction m as [|[k' v'] rest IH]; simpl; [reflexivity|].
  intros H. destruct (String.eqb_spec k' k) as [->|Hne].
  - exfalso. apply H. now left.
  - simpl. f_equal. apply IH. intros I. apply H. now right.
Qed.

Lemma keys_set_old k v m :
  In k (JsMap.keys m) -> JsMap.keys (JsMap.set k v m) = JsMap.keys m.
Proof.
  induction m as [|[k' v'] rest IH]; simpl; [tauto|].
  intros H. destruct (String.eqb_spec k' k) as [->|Hne]; [reflexivity|].
  simpl. f_equal. apply IH. destruct H as [E|I]; [contradiction|exact I].
Qed.

Lemma set_entries k v m e :
  In e (JsMap.set k v m) -> e = (k, v) \/ In e m.
Proof.
  induction m as [|[k' v'] rest IH]; simpl.
  - intros [E|[]]. now left.
  - destruct (k' =? k); simpl.
    + intros [E|I]; [now left | right; now right].
    + intros [E|I]; [right; now left|].
      destruct (IH I) as [E|I']; [now left | right; now right].
Qed.
End JsMapFacts.

(* ================================================================= *)
(** ** Facts about the registry *)

Lemma removeClient_delete sid reg :
  removeClient sid reg = JsMap.delete sid reg.
Proof.
  unfold removeClient. destruct (JsMap.get sid reg) eqn:E; [reflexivity|].
  symmetry. apply delete_absent. now apply get_none_iff.
Qed.

Lemma removeClient_twice sid reg :
  removeClient sid (removeClient sid reg) = removeClient sid reg.
Proof. rewrite !removeClient_delete. apply delete_delete. Qed.

Lemma removeClient_incl sid reg : incl (removeClient sid reg) reg.
Proof. rewrite removeClient_delete. apply delete_incl. Qed.

Lemma wellFormed_empty : wellFormed (JsMap.empty ConnectedClient).
Proof. split; constructor. Qed.

Lemma wellFormed_addClient now uid sid reg :
  wellFormed reg -> wellFormed (addClient now uid sid reg).
Proof.
  intros [Hnd Hall]. split.
  - unfold addClient.
    destruct (in_dec string_dec sid (JsMap.keys reg)) as [I|N].
    + now rewrite keys_set_old.
    + rewrite keys_set_new by exact N.
      apply NoDup_app; [exact Hnd | repeat constructor; simpl; tauto |].
      intros x Hx [<-|[]]. contradiction.
  - apply Forall_forall. intros e He.
    destruct (set_entries _ _ _ _ _ He) as [->|I]; [reflexivity|].
    rewrite Forall_forall in Hall. now apply Hall.
Qed.

Lemma wellFormed_removeClient sid reg :
  wellFormed reg -> wellFormed (removeClient sid reg).
Proof.
  intros [Hnd Hall]. rewrite removeClient_delete. split.
  - rewrite keys_delete. now apply NoDup_filter.
  - apply Forall_forall. intros e He. rewrite Forall_forall in Hall.
    apply Hall. now apply (delete_incl _ sid reg).
Qed.

Lemma wellFormed_scenario : wellFormed scenarioRegistry.
Proof. repeat apply wellFormed_addClient. apply wellFormed_empty. Qed.

(* ================================================================= *)
(** ** Facts about the delivery loops *)

Ltac step_emit emit sid dto w :=
  unfold tryEmit;
  let out := fresh "out" in
  let reg' := fresh "reg'" in
  let E := fresh "Eemit" in
  destruct (emit sid dto (connectedClients w)) as [out reg'] eqn:E; simpl.

Section Loops.
Variable emit : EmitFunction.
Variable dto : WebSocketNotificationDto.

(** Every id of the array is attempted, once, in order. *)
Lemma forEachSocket_sockets ids : forall successful w,
  map call_socketId (emitCalls (snd (forEachSocket emit dto ids successful w)))
  = map call_socketId (emitCalls w) ++ ids.
Proof.
  induction ids as [|sid rest IH]; intros successful w; simpl.
  - now rewrite app_nil_r.
  - step_emit emit sid dto w. rewrite IH. simpl.
    rewrite map_app. simpl. now rewrite <- app_assoc.
Qed.

Lemma forEachSocket_payloads ids : forall successful w,
  Forall (fun c => call_payload c = dto) (emitCalls w) ->
  Forall (fun c => call_payload c = dto)
    (emitCalls (snd (forEachSocket emit dto ids successful w))).
Proof.
  induction ids as [|sid rest IH]; intros successful w H; simpl.
  - exact H.
  - step_emit emit sid dto w. apply IH. simpl.
    apply Forall_app. split; [exact H | now repeat constructor].
Qed.

(** The returned ids are those of the attempts that did not throw. *)
Lemma forEachSocket_result ids : forall successful w,
  successful = map call_socketId (filter call_ok (emitCalls w)) ->
  fst (forEachSocket emit dto ids successful w)
  = map call_socketId
      (filter call_ok
         (emitCalls (snd (forEachSocket emit dto ids successful w)))).
Proof.
  induction ids as [|sid rest IH]; intros successful w H; simpl.
  - exact H.
  - step_emit emit sid dto w. apply IH. simpl.
    rewrite filter_app, map_app, <- H. simpl.
    destruct (returned out); simpl; [reflexivity | now rewrite app_nil_r].
Qed.

Lemma forEachSocket_onlyEvicts ids : onlyEvicts emit ->
  forall successful w,
  incl (connectedClients (snd (forEachSocket emit dto ids successful w)))
       (connectedClients w).
Proof.
  intros Hev. induction ids as [|sid rest IH]; intros successful w; simpl.
  - apply incl_refl.
  - pose proof (Hev sid dto (connectedClients w)) as Hstep.
    step_emit emit sid dto w.
    eapply incl_tran; [apply IH | exact Hstep].
Qed.

Lemma succeedsOn_incl ids ids' :
  incl ids ids' -> succeedsOn ids' emit -> succeedsOn ids emit.
Proof. intros Hincl H sid d reg Hin. apply H. now apply Hincl. Qed.

Lemma preservesOn_incl ids ids' :
  incl ids ids' -> preservesOn ids' emit -> preservesOn ids emit.
Proof. intros Hincl H sid d reg Hin. apply H. now apply Hincl. Qed.

Lemma forEachSocket_preserves ids : preservesOn ids emit ->
  forall successful w,
  connectedClients (snd (forEachSocket emit dto ids successful w))
  = connectedClients w.
Proof.
  induction ids as [|sid rest IH]; intros Hp successful w; simpl.
  - reflexivity.
  - pose proof (Hp sid dto (connectedClients w) (in_eq _ _)) as Hstep.
    step_emit emit sid dto w. simpl in Hstep. subst reg'.
    rewrite IH; [reflexivity|].
    apply (preservesOn_incl rest (sid :: rest)); [apply incl_tl, incl_refl|].
    exact Hp.
Qed.

Lemma forEachSocket_allSucceed ids : succeedsOn ids emit ->
  forall successful w,
  fst (forEachSocket emit dto ids successful w) = successful ++ ids.
Proof.
  induction ids as [|sid rest IH]; intros Hs successful w; simpl.
  - now rewrite app_nil_r.
  - pose proof (Hs sid dto (connectedClients w) (in_eq _ _)) as Hstep.
    step_emit emit sid dto w. simpl in Hstep. subst out. simpl.
    rewrite IH; [now rewrite <- app_assoc|].
    apply (succeedsOn_incl rest (sid :: rest)); [apply incl_tl, incl_refl|].
    exact Hs.
Qed.

Lemma forEachSocket_allOk ids : succeedsOn ids emit ->
  forall successful w,
  Forall (fun c => call_ok c = true) (emitCalls w) ->
  Forall (fun c => call_ok c = true)
    (emitCalls (snd (forEachSocket emit dto ids successful w))).
Proof.
  induction ids as [|sid rest IH]; intros Hs successful w H; simpl.
  - exact H.
  - pose proof (Hs sid dto (connectedClients w) (in_eq _ _)) as Hstep.
    step_emit emit sid dto w. simpl in Hstep. subst out. apply IH.
    + apply (succeedsOn_incl rest (sid :: rest)); [apply incl_tl, incl_refl|].
      exact Hs.
    + simpl. apply Forall_app. split; [exact H | now repeat constructor].
Qed.

Lemma socketsOf_registered uid reg :
  incl (socketsOf uid reg) (registeredSockets reg).
Proof.
  unfold socketsOf, registeredSockets, getClientsByUserId.
  intros sid Hin. apply in_map_iff in Hin. destruct Hin as [c [Hc Hin]].
  apply filter_In in Hin. apply in_map_iff. exists c. tauto.
Qed.


Lemma forEachUser_result users : forall successful w,
  successful = map call_socketId (filter call_ok (emitCalls w)) ->
  fst (forEachUser emit dto users successful w)
  = map call_socketId
      (filter call_ok
         (emitCalls (snd (forEachUser emit dto users successful w)))).
Proof.
  induction users as [|uid rest IH]; intros successful w H; simpl.
  - exact H.
  - set (ids := map socketId (getClientsByUserId uid (connectedClients w))).
    pose proof (forEachSocket_result ids successful w H) as R.
    destruct (forEachSocket emit dto ids successful w) as [s' w'].
    now apply IH.
Qed.

Lemma forEachUser_onlyEvicts users : onlyEvicts emit ->
  forall successful w,
  incl (connectedClients (snd (forEachUser emit dto users successful w)))
       (connectedClients w).
Proof.
  intros Hev. induction users as [|uid rest IH]; intros successful w; simpl.
  - apply incl_refl.
  - set (ids := map socketId (getClientsByUserId uid (connectedClients w))).
    pose proof (forEachSocket_onlyEvicts ids Hev successful w) as R.
    destruct (forEachSocket emit dto ids successful w) as [s' w'].
    eapply incl_tran; [apply IH | exact R].
Qed.

(** With a primitive that leaves the registry alone, the targeted loop
    attempts the sockets of each listed user, in input order. *)
Lemma forEachUser_preserves users : forall successful w,
  preservesOn (registeredSockets (connectedClients w)) emit ->
  connectedClients (snd (forEachUser emit dto users successful w))
  = connectedClients w
  /\ map call_socketId
       (emitCalls (snd (forEachUser emit dto users successful w)))
     = map call_socketId (emitCalls w)
       ++ flat_map (fun uid => socketsOf uid (connectedClients w)) users.
Proof.
  induction users as [|uid rest IH]; intros successful w Hp; simpl.
  - now rewrite app_nil_r.
  - pose proof (preservesOn_incl _ _
                  (socketsOf_registered uid (connectedClients w)) Hp) as Hp'.
    unfold socketsOf at 2. unfold socketsOf in Hp'.
    set (ids := map socketId (getClientsByUserId uid (connectedClients w)))
      in *.
    pose proof (forEachSocket_preserves ids Hp' successful w) as Hreg.
    pose proof (forEachSocket_sockets ids successful w) as Hcalls.
    destruct (forEachSocket emit dto ids successful w) as [s' w'].
    simpl in Hreg, Hcalls. rewrite <- Hreg in Hp.
    destruct (IH s' w' Hp) as [IH1 IH2]. split.
    + now rewrite IH1.
    + rewrite IH2, Hcalls, Hreg. now rewrite <- app_assoc.
Qed.


(** Whatever the primitive does, a socket that is attempted belonged, when
    the call started, to one of the listed users. *)
Lemma forEachUser_targets users : onlyEvicts emit ->
  forall successful w sid,
  In sid (map call_socketId
            (emitCalls (snd (forEachUser emit dto users successful w)))) ->
  In sid (map call_socketId (emitCalls w))
  \/ exists uid client,
       In uid users /\ In client (JsMap.values (connectedClients w))
       /\ userId client = uid /\ socketId client = sid.
Proof.
  intros Hev. induction users as [|uid rest IH]; intros successful w sid;
    simpl.
  - now left.
  - set (ids := map socketId (getClientsByUserId uid (connectedClients w))).
    pose proof (forEachSocket_onlyEvicts ids Hev successful w) as Hincl.
    pose proof (forEachSocket_sockets ids successful w) as Hcalls.
    destruct (forEachSocket emit dto ids successful w) as [s' w'].
    simpl in Hincl, Hcalls.
    intros Hin. destruct (IH s' w' sid Hin) as [Hold|Hnew].
    + rewrite Hcalls in Hold. apply in_app_or in Hold.
      destruct Hold as [Hold|Hmine]; [now left|]. right.
      subst ids. apply in_map_iff in Hmine.
      destruct Hmine as [client [Hsid Hclient]].
      unfold getClientsByUserId in Hclient. apply filter_In in Hclient.
      destruct Hclient as [Hval Huid]. apply String.eqb_eq in Huid.
      exists uid, client. repeat split; auto.
    + right. destruct Hnew as [u [client [Hu [Hval [Huid Hsid]]]]].
      exists u, client. repeat split; auto.
      unfold JsMap.values in *. apply in_map_iff in Hval.
      destruct Hval as [entry [Hsnd Hentry]]. apply in_map_iff.
      exists entry. split; [exact Hsnd | now apply Hincl].
Qed.
End Loops.

(* ================================================================= *)
(** ** Facts about lists used below *)

Lemma NoDup_map_filter {X Y} (key : X -> Y) (keep : X -> bool) :
  forall xs, NoDup (map key xs) -> NoDup (map key (filter keep xs)).
Proof.
  intros xs. induction xs as [|x rest IH]; simpl; intros H; [constructor|].
  inversion H as [|? ? Hnot Hrest]; subst.
  destruct (keep x); simpl; [|now apply IH].
  constructor; [|now apply IH].
  intros Hin. apply Hnot. apply in_map_iff in Hin.
  destruct Hin as [y [Hy Hin]]. apply filter_In in Hin.
  rewrite <- Hy. apply in_map. tauto.
Qed.

Lemma NoDup_map_injective {A B} (f : A -> B) (l : list A) x y :
  NoDup (map f l) -> In x l -> In y l -> f x = f y -> x = y.
Proof.
  induction l as [|z rest IH]; simpl; intros H Hx Hy E; [contradiction|].
  inversion H as [|? ? Hnot Hrest]; subst.
  destruct Hx as [->|Hx], Hy as [->|Hy]; auto.
  - exfalso. apply Hnot. rewrite E. now apply in_map.
  - exfalso. apply Hnot. rewrite <- E. now apply in_map.
Qed.

Lemma filter_all {A} (p : A -> bool) (l : list A) :
  (forall x, In x l -> p x = true) -> filter p l = l.
Proof.
  induction l as [|x rest IH]; simpl; intros H; [reflexivity|].
  rewrite (H x) by now left. f_equal. apply IH. intros y Hy. apply H.
  now right.
Qed.

Lemma filter_none {A} (p : A -> bool) (l : list A) :
  (forall x, In x l -> p x = false) -> filter p l = [].
Proof.
  induction l as [|x rest IH]; simpl; intros H; [reflexivity|].
  rewrite (H x) by now left. apply IH. intros y Hy. apply H. now right.
Qed.

Lemma length_filter_remove_one (c : string) (l : list string) :
  NoDup l -> In c l ->
  List.length (filter (fun k => negb (k =? c)) l) = List.length l - 1.
Proof.
  induction l as [|x rest IH]; simpl; intros Hnd Hin; [contradiction|].
  inversion Hnd as [|? ? Hnot Hrest]; subst.
  destruct (String.eqb_spec x c) as [->|Hne]; simpl.
  - rewrite filter_all; [lia|].
    intros y Hy. destruct (String.eqb_spec y c) as [->|]; [contradiction|].
    reflexivity.
  - destruct Hin as [E|Hin]; [contradiction|].
    rewrite IH by assumption. destruct rest; [contradiction | simpl; lia].
Qed.

Lemma isIn_true_iff s l : isIn s l = true <-> In s l.
Proof.
  unfold isIn. rewrite existsb_exists. split.
  - intros [x [Hx E]]. apply String.eqb_eq in E. now subst.
  - intros H. exists s. split; [exact H | apply String.eqb_refl].
Qed.

(* ================================================================= *)
(** ** More on the registry: connections of a user *)

Lemma wellFormed_socketIds reg :
  wellFormed reg -> map socketId (JsMap.values reg) = JsMap.keys reg.
Proof.
  intros [_ Hall]. unfold JsMap.values, JsMap.keys. rewrite map_map.
  apply map_ext_in. intros e He. rewrite Forall_forall in Hall.
  now apply Hall.
Qed.

Lemma socketsOf_NoDup uid reg : wellFormed reg -> NoDup (socketsOf uid reg).
Proof.
  intros Hwf. unfold socketsOf, getClientsByUserId.
  apply NoDup_map_filter. rewrite wellFormed_socketIds by exact Hwf.
  apply Hwf.
Qed.

Lemma socketsOf_client uid reg sid :
  In sid (socketsOf uid reg) <->
  exists client, In client (JsMap.values reg)
                 /\ userId client = uid /\ socketId client = sid.
Proof.
  unfold socketsOf, getClientsByUserId. rewrite in_map_iff. split.
  - intros [client [Hsid Hin]]. apply filter_In in Hin.
    destruct Hin as [Hin Huid]. apply String.eqb_eq in Huid. eauto.
  - intros [client [Hin [Huid Hsid]]]. exists client. split; [exact Hsid|].
    apply filter_In. split; [exact Hin | now apply String.eqb_eq].
Qed.

Lemma socketsOf_same_user reg sid u v :
  wellFormed reg ->
  In sid (socketsOf u reg) -> In sid (socketsOf v reg) -> u = v.
Proof.
  intros Hwf Hu Hv.
  apply socketsOf_client in Hu. destruct Hu as [c1 [Hin1 [Hu Hs1]]].
  apply socketsOf_client in Hv. destruct Hv as [c2 [Hin2 [Hv Hs2]]].
  assert (c1 = c2).
  { apply (NoDup_map_injective socketId (JsMap.values reg)); auto.
    - rewrite wellFormed_socketIds by exact Hwf. apply Hwf.
    - congruence. }
  congruence.
Qed.

Lemma registered_client reg client :
  wellFormed reg -> In client (JsMap.values reg) ->
  JsMap.get (socketId client) reg = Some client.
Proof.
  intros [Hnd Hall] Hin. unfold JsMap.values in Hin.
  apply in_map_iff in Hin. destruct Hin as [[k c] [Hc Hin]]. simpl in Hc.
  subst c. rewrite Forall_forall in Hall. pose proof (Hall _ Hin) as Hk.
  simpl in Hk. rewrite Hk. now apply in_get.
Qed.

(* ================================================================= *)
(** ** Facts about the gateway's send primitive *)

Lemma emitToSocket_ok server event sid dto reg :
  sendFails server sid = false ->
  NotificationGateway.emitToSocket server event sid dto reg = (Returns tt, reg).
Proof.
  unfold sendFails, NotificationGateway.emitToSocket.
  destruct (JsMap.get sid server) as [socket|]; [|discriminate].
  destruct (emitError socket); [discriminate | reflexivity].
Qed.

Lemma emitToSocket_fail server event sid dto reg :
  sendFails server sid = true ->
  returned (fst (NotificationGateway.emitToSocket server event sid dto reg))
  = false
  /\ snd (NotificationGateway.emitToSocket server event sid dto reg)
     = JsMap.delete sid reg.
Proof.
  unfold sendFails, NotificationGateway.emitToSocket.
  destruct (JsMap.get sid server) as [socket|].
  - destruct (emitError socket); [|discriminate]. intros _. simpl.
    split; [reflexivity | apply removeClient_delete].
  - intros _. simpl. split; [reflexivity|].
    rewrite removeClient_twice. apply removeClient_delete.
Qed.

Lemma emitToSocket_onlyEvicts server event :
  onlyEvicts (NotificationGateway.emitToSocket server event).
Proof.
  intros sid dto reg. destruct (sendFails server sid) eqn:E.
  - destruct (emitToSocket_fail server event sid dto reg E) as [_ ->].
    apply delete_incl.
  - rewrite emitToSocket_ok by exact E. apply incl_refl.
Qed.

(** Well-formedness is an invariant of everything the gateway does to
    the registry: connecting, disconnecting, and sending. *)
Lemma handleConnection_wellFormed verify now client reg :
  wellFormed reg ->
  wellFormed (snd (NotificationGateway.handleConnection verify now client reg)).
Proof.
  intros Hwf. unfold NotificationGateway.handleConnection.
  destruct (NotificationGateway.extractToken client) as [token|];
    [|exact Hwf].
  destruct (verify token) as [[payload|]|e]; try exact Hwf.
  destruct (jwt_id payload) as [uid|]; [|exact Hwf].
  destruct (truthy (Some uid)); [|exact Hwf].
  now apply wellFormed_addClient.
Qed.

Lemma handleDisconnect_wellFormed client reg :
  wellFormed reg ->
  wellFormed (NotificationGateway.handleDisconnect client reg).
Proof. apply wellFormed_removeClient. Qed.

Lemma emitToSocket_wellFormed server event sid dto reg :
  wellFormed reg ->
  wellFormed (snd (NotificationGateway.emitToSocket server event sid dto reg)).
Proof.
  intros Hwf. destruct (sendFails server sid) eqn:E.
  - destruct (emitToSocket_fail server event sid dto reg E) as [_ ->].
    rewrite <- removeClient_delete. now apply wellFormed_removeClient.
  - now rewrite emitToSocket_ok by exact E.
Qed.

Lemma alwaysSucceeds_succeedsOn emit ids :
  alwaysSucceeds emit -> succeedsOn ids emit.
Proof. intros H sid dto reg _. apply H. Qed.

Lemma mockEmitFunction_preserves failing ids :
  preservesOn ids (mockEmitFunction failing).
Proof.
  intros sid dto reg _. unfold mockEmitFunction.
  now destruct (isIn sid failing).
Qed.

Lemma mockEmitFunction_succeeds : alwaysSucceeds (mockEmitFunction []).
Proof. intros sid dto reg. reflexivity. Qed.

(** On sockets that the server holds and whose [emit] returns, the
    gateway's primitive succeeds and leaves the registry alone. *)
Lemma emitToSocket_succeedsOn server event ids :
  (forall sid, In sid ids -> sendFails server sid = false) ->
  succeedsOn ids (NotificationGateway.emitToSocket server event)
  /\ preservesOn ids (NotificationGateway.emitToSocket server event).
Proof.
  intros H. split; intros sid dto reg Hin;
    now rewrite emitToSocket_ok by (now apply H).
Qed.

Lemma sendFails_serverWith ids sid :
  In sid ids -> sendFails (serverWith ids) sid = false.
Proof.
  unfold sendFails, serverWith. induction ids as [|x rest IH]; simpl.
  - contradiction.
  - intros [->|Hin].
    + now rewrite String.eqb_refl.
    + destruct (x =? sid); [reflexivity | now apply IH].
Qed.

(** Broadcasting through the gateway: the sockets whose send does not fail
    are returned, the others are deleted from the registry. *)
Lemma forEachSocket_gateway server event dto ids : forall successful w,
  fst (forEachSocket (NotificationGateway.emitToSocket server event) dto ids
         successful w)
  = successful ++ filter (fun sid => negb (sendFails server sid)) ids
  /\ connectedClients
       (snd (forEachSocket (NotificationGateway.emitToSocket server event)
               dto ids successful w))
     = fold_left (fun reg sid => JsMap.delete sid reg)
         (filter (sendFails server) ids) (connectedClients w).
Proof.
  induction ids as [|sid rest IH]; intros successful w; simpl.
  - now rewrite app_nil_r.
  - destruct (sendFails server sid) eqn:E; simpl.
    + destruct (emitToSocket_fail server event sid dto (connectedClients w) E)
        as [Hret Hreg].
      step_emit (NotificationGateway.emitToSocket server event) sid dto w.
      simpl in Hret, Hreg. rewrite Hret. subst reg'. apply IH.
    + unfold tryEmit. rewrite emitToSocket_ok by exact E. simpl.
      destruct (IH (successful ++ [sid])
                  {| connectedClients := connectedClients w;
                     emitCalls := emitCalls w ++
                       [{| call_socketId := sid; call_payload := dto;
                           call_ok := true |}] |}) as [IH1 IH2].
      rewrite IH1, IH2. simpl. now rewrite <- app_assoc.
Qed.

Lemma evict_already_deleted (fails : string -> bool) c ids : forall reg,
  (forall sid, In sid ids -> fails sid = true -> sid = c) ->
  fold_left (fun reg sid => JsMap.delete sid reg) (filter fails ids)
    (JsMap.delete c reg)
  = JsMap.delete (V:=ConnectedClient) c reg.
Proof.
  induction ids as [|sid rest IH]; intros reg H; simpl; [reflexivity|].
  destruct (fails sid) eqn:E; simpl.
  - assert (sid = c) as -> by (apply H; [now left | exact E]).
    rewrite delete_delete. apply IH. intros s Hs. apply H. now right.
  - apply IH. intros s Hs. apply H. now right.
Qed.

Lemma evict_single (fails : string -> bool) c ids : forall reg,
  (forall sid, In sid ids -> fails sid = true -> sid = c) ->
  fails c = true -> In c ids ->
  fold_left (fun reg sid => JsMap.delete sid reg) (filter fails ids) reg
  = JsMap.delete (V:=ConnectedClient) c reg.
Proof.
  induction ids as [|sid rest IH]; intros reg H Hc Hin; simpl;
    [contradiction|].
  destruct (fails sid) eqn:E; simpl.
  - assert (sid = c) as -> by (apply H; [now left | exact E]).
    apply evict_already_deleted. intros s Hs. apply H. now right.
  - destruct Hin as [->|Hin]; [congruence|].
    apply IH; auto. intros s Hs. apply H. now right.
Qed.

(* ================================================================= *)
(** ** The ingress endpoint on an empty registry *)

(** C5. When the registry holds no connection at request time,
    [receiveNotification] returns (it does not throw) the distinguished
    "No clients connected" result, whose [deliveryInfo] has
    [totalClients = 0] and [deliveredTo = 0]; the service state and the log
    of send attempts are left as they were, so no send is attempted. *)
Theorem C5_zero_connections_not_an_error uuid now server notification w :
  getConnectedClientsCount (connectedClients w) = 0 ->
  WebhookController.receiveNotification uuid now server notification w
  = (Returns
       {| resp_message :=
            "No clients connected - notification will not be delivered";
          resp_status := "error";
          notificationId := None;
          deliveryInfo := {| totalClients := 0; deliveredTo := 0;
                             targetType := broadcast;
                             targetUsers := None |} |},
     w).
Proof.
  intros H. unfold WebhookController.receiveNotification. now rewrite H.
Qed.

Lemma C5_zero_connections_witness :
  WebhookController.receiveNotification scenarioUuid scenarioNow
    (serverWith ["c1"]) (request (Some ["alice"]) None)
    (freshWorld (JsMap.empty ConnectedClient))
  = (Returns
       {| resp_message :=
            "No clients connected - notification will not be delivered";
          resp_status := "error";
          notificationId := None;
          deliveryInfo := {| totalClients := 0; deliveredTo := 0;
                             targetType := broadcast;
                             targetUsers := None |} |},
     freshWorld (JsMap.empty ConnectedClient)).
Proof.
  apply (C5_zero_connections_not_an_error scenarioUuid scenarioNow
           (serverWith ["c1"]) (request (Some ["alice"]) None)
           (freshWorld (JsMap.empty ConnectedClient))).
  reflexivity.
Defined.

(* ================================================================= *)
(** ** Normalisation *)

(** C4, as the claim states it, fails: a priority outside low, normal, high
    is copied, not replaced by normal. *)
Lemma C4_counterexample :
  bn_priority
    (processWebhookNotification scenarioUuid scenarioNow
       (request None (Some "urgent"))) = "urgent"
  /\ ~ In "urgent" priorityValues
  /\ "urgent" <> "normal".
Proof.
  split; [reflexivity|]. split; [|discriminate].
  simpl. intros [H|[H|[H|[]]]]; discriminate.
Qed.

(** C4, amended. The notification produced by [processWebhookNotification]
    has the payload's priority when that is low, normal or high (indeed
    whenever it is a non-empty string), and normal when the field is absent
    or empty. A payload that passes the DTO rule [IsIn(low, normal, high)]
    therefore always yields one of the three values; other values are left
    to that rule and are not normalised here. *)
Theorem C4_priority_normalization uuid now dto :
  (forall v, wh_priority dto = Some v -> In v priorityValues ->
     bn_priority (processWebhookNotification uuid now dto) = v)
  /\ (forall v, wh_priority dto = Some v -> v <> "" ->
        bn_priority (processWebhookNotification uuid now dto) = v)
  /\ (wh_priority dto = None \/ wh_priority dto = Some "" ->
        bn_priority (processWebhookNotification uuid now dto) = "normal")
  /\ (priorityIsValid dto = true ->
        In (bn_priority (processWebhookNotification uuid now dto))
           priorityValues).
Proof.
  assert (Hcopy : forall v, wh_priority dto = Some v -> v <> "" ->
            bn_priority (processWebhookNotification uuid now dto) = v).
  { intros v Hv Hne. simpl. rewrite Hv. simpl.
    destruct (String.eqb_spec v ""); [contradiction | reflexivity]. }
  split; [|split; [exact Hcopy | split]].
  - intros v Hv Hin. apply Hcopy; [exact Hv|].
    simpl in Hin. destruct Hin as [<-|[<-|[<-|[]]]]; discriminate.
  - intros [H|H]; simpl; now rewrite H.
  - unfold priorityIsValid.
    destruct (wh_priority dto) as [v|] eqn:Hv.
    + intros Hin. apply isIn_true_iff in Hin.
      rewrite (Hcopy v eq_refl); [exact Hin|].
      intros ->. simpl in Hin. destruct Hin as [H|[H|[H|[]]]]; discriminate.
    + intros _. simpl. rewrite Hv. right. now left.
Qed.

Lemma C4_priority_normalization_witness :
  bn_priority
    (processWebhookNotification scenarioUuid scenarioNow
       (request None (Some "high"))) = "high"
  /\ bn_priority
       (processWebhookNotification scenarioUuid scenarioNow
          (request None None)) = "normal"
  /\ In (bn_priority
           (processWebhookNotification scenarioUuid scenarioNow
              (request None (Some "low")))) priorityValues.
Proof.
  split; [|split].
  - apply (proj1 (C4_priority_normalization scenarioUuid scenarioNow
                    (request None (Some "high")))); [reflexivity|].
    right. right. left. reflexivity.
  - apply (proj1 (proj2 (proj2
             (C4_priority_normalization scenarioUuid scenarioNow
                (request None None))))).
    left. reflexivity.
  - apply (proj2 (proj2 (proj2
             (C4_priority_normalization scenarioUuid scenarioNow
                (request None (Some "low")))))).
    reflexivity.
Defined.

(* ================================================================= *)
(** ** What the ingress endpoint does to the service *)

(** The service state after a request: untouched on an empty registry,
    otherwise that left by the targeted or the broadcast delivery through
    the gateway's send primitive. *)
Lemma receiveNotification_world uuid now server dto w :
  snd (WebhookController.receiveNotification uuid now server dto w)
  = if Nat.eqb (getConnectedClientsCount (connectedClients w)) 0 then w
    else if WebhookController.hasTargetUsers dto
    then snd (sendToUsers (processWebhookNotification uuid now dto)
                match wh_targetUsers dto with Some us => us | None => [] end
                (NotificationGateway.emitToSocket server "notification") w)
    else snd (broadcastNotification (processWebhookNotification uuid now dto)
                (NotificationGateway.emitToSocket server "notification") w).
Proof.
  unfold WebhookController.receiveNotification.
  destruct (Nat.eqb (getConnectedClientsCount (connectedClients w)) 0);
    [reflexivity|].
  destruct (WebhookController.hasTargetUsers dto).
  - unfold NotificationGateway.sendToUsers.
    destruct (sendToUsers _ _ _ w) as [res w']. reflexivity.
  - unfold NotificationGateway.sendToAll.
    destruct (broadcastNotification _ _ w) as [res w']. reflexivity.
Qed.

(** A request without target users, on a non-empty registry. *)
Lemma receiveNotification_broadcast uuid now server dto w :
  getConnectedClientsCount (connectedClients w) <> 0 ->
  WebhookController.hasTargetUsers dto = false ->
  fst (WebhookController.receiveNotification uuid now server dto w)
  = Returns
      {| resp_message := "Notification received and processed successfully";
         resp_status := "success";
         notificationId := Some uuid;
         deliveryInfo :=
           {| totalClients := getConnectedClientsCount (connectedClients w);
              deliveredTo := getConnectedClientsCount (connectedClients w);
              targetType := broadcast;
              targetUsers := None |} |}.
Proof.
  intros Hne Hnt. unfold WebhookController.receiveNotification.
  apply Nat.eqb_neq in Hne. rewrite Hne, Hnt.
  unfold NotificationGateway.sendToAll.
  destruct (broadcastNotification _ _ w) as [res w']. reflexivity.
Qed.

Lemma broadcastNotification_sockets notification emit w :
  map call_socketId
    (emitCalls (snd (broadcastNotification notification emit w)))
  = map call_socketId (emitCalls w) ++ JsMap.keys (connectedClients w).
Proof. unfold broadcastNotification. apply forEachSocket_sockets. Qed.

(* ================================================================= *)
(** ** Wire format *)


(* ================================================================= *)
(** ** Connection handling *)

Lemma extractToken_nonempty client token :
  NotificationGateway.extractToken client = Some token -> token <> "".
Proof.
  unfold NotificationGateway.extractToken. cbv zeta.
  match goal with
  | |- (if truthy ?t then _ else _) = _ -> _ => generalize t
  end.
  intros [s|]; simpl; [|discriminate].
  destruct (String.eqb_spec s ""); simpl; [discriminate|].
  now intros [= <-].
Qed.

(** C10. [handleConnection] registers the connection only in one case:
    a non-empty token was extracted, [jwtService.verify] returned a payload
    and that payload carries a non-empty id; the connection is then added
    under exactly that id. In every other case (no token, verification
    throws, no payload, no id) the client is sent an error with code
    AUTHENTICATION_REQUIRED, is disconnected with [disconnect(true)], and
    the registry is unchanged. No other identity is ever registered. *)
Theorem C10_registration_requires_verified_identity verify now client reg :
  (exists token payload uid,
      NotificationGateway.extractToken client = Some token
      /\ token <> ""
      /\ verify token = Returns (Some payload)
      /\ jwt_id payload = Some uid /\ uid <> ""
      /\ snd (NotificationGateway.handleConnection verify now client reg)
         = addClient now uid (client_id client) reg
      /\ ~ In (Disconnect true)
             (fst (NotificationGateway.handleConnection verify now client reg)))
  \/ ((NotificationGateway.extractToken client = None
       \/ exists token,
            NotificationGateway.extractToken client = Some token
            /\ (verify token = Returns None
                \/ (exists e, verify token = Throws e)
                \/ exists payload,
                     verify token = Returns (Some payload)
                     /\ truthy (jwt_id payload) = false))
      /\ snd (NotificationGateway.handleConnection verify now client reg) = reg
      /\ fst (NotificationGateway.handleConnection verify now client reg)
         = [EmitError "Connection failed" (client_id client)
              (JsDate.toISOString now) "AUTHENTICATION_REQUIRED";
            Disconnect true]).
Proof.
  unfold NotificationGateway.handleConnection.
  destruct (NotificationGateway.extractToken client) as [token|] eqn:Etok.
  2:{ right. repeat split. now left. }
  destruct (verify token) as [[payload|]|e] eqn:Ever.
  - destruct (jwt_id payload) as [uid|] eqn:Eid.
    + destruct (truthy (Some uid)) eqn:Etruthy.
      * left. exists token, payload, uid. repeat split; auto.
        -- now apply (extractToken_nonempty client).
        -- intros ->. discriminate.
        -- simpl. intros [H|[H|[H|[]]]]; discriminate.
      * right. repeat split. right. exists token. split; [reflexivity|].
        right. right. exists payload. split; [exact Ever|].
        now rewrite Eid.
    + right. repeat split. right. exists token. split; [reflexivity|].
      right. right. exists payload. split; [exact Ever|]. now rewrite Eid.
  - right. repeat split. right. exists token. split; [reflexivity|].
    left. exact Ever.
  - right. repeat split. right. exists token. split; [reflexivity|].
    right. left. exists e. exact Ever.
Qed.

Lemma C10_registration_witness :
  snd (NotificationGateway.handleConnection verifyAlice scenarioNow
         (clientWith (Some "Bearer good-token") None) scenarioRegistry)
  = addClient scenarioNow "alice" "c9" scenarioRegistry
  /\ snd (NotificationGateway.handleConnection verifyAlice scenarioNow
            (clientWith None (Some "forged")) scenarioRegistry)
     = scenarioRegistry
  /\ snd (NotificationGateway.handleConnection verifyAlice scenarioNow
            (clientWith None None) scenarioRegistry)
     = scenarioRegistry.
Proof.
  split; [|split].
  - destruct (C10_registration_requires_verified_identity verifyAlice
                scenarioNow (clientWith (Some "Bearer good-token") None)
                scenarioRegistry)
      as [[token [payload [uid [_ [_ [_ [_ [_ [_ _]]]]]]]]] | [_ [_ _]]];
      reflexivity.
  - destruct (C10_registration_requires_verified_identity verifyAlice
                scenarioNow (clientWith None (Some "forged"))
                scenarioRegistry)
      as [[token [payload [uid [_ [_ [_ [_ [_ [_ _]]]]]]]]] | [_ [_ _]]];
      reflexivity.
  - destruct (C10_registration_requires_verified_identity verifyAlice
                scenarioNow (clientWith None None) scenarioRegistry)
      as [[token [payload [uid [_ [_ [_ [_ [_ [_ _]]]]]]]]] | [_ [_ _]]];
      reflexivity.
Defined.

(* ================================================================= *)
(** ** What the sends do to the registry *)

(** The loop applies the primitive to every id of its array, in order,
    each time on the registry the previous sends left. *)
Lemma forEachSocket_effects emit dto ids : forall successful w,
  connectedClients (snd (forEachSocket emit dto ids successful w))
  = effectsOf emit dto ids (connectedClients w).
Proof.
  unfold effectsOf.
  induction ids as [|sid rest IH]; intros successful w; simpl;
    [reflexivity|].
  step_emit emit sid dto w. now rewrite IH.
Qed.

Lemma socketsOf_connectionsOf uid reg :
  (forall entry, In entry reg -> socketId (snd entry) = fst entry) ->
  socketsOf uid reg = connectionsOf uid reg.
Proof.
  unfold socketsOf, getClientsByUserId, connectionsOf, JsMap.values.
  induction reg as [|[k c] rest IH]; intros H; simpl; [reflexivity|].
  assert (IH' : map socketId (filter (fun cl => userId cl =? uid) (map snd rest))
                = map fst (filter (fun e => userId (snd e) =? uid) rest)).
  { apply IH. intros e He. apply H. now right. }
  destruct (userId c =? uid); simpl; [|exact IH'].
  rewrite IH'. f_equal. apply (H (k, c)). now left.
Qed.

Lemma wellFormed_keyed reg :
  wellFormed reg ->
  forall entry, In entry reg -> socketId (snd entry) = fst entry.
Proof. intros [_ Hall]. now apply Forall_forall. Qed.

Lemma connectionsOf_iff uid reg sid :
  wellFormed reg ->
  In sid (connectionsOf uid reg)
  <-> exists client, JsMap.get sid reg = Some client /\ userId client = uid.
Proof.
  intros Hwf. unfold connectionsOf. rewrite in_map_iff. split.
  - intros [[k c] [Hk Hin]]. simpl in Hk. subst k.
    apply filter_In in Hin. destruct Hin as [Hin Hu]. simpl in Hu.
    exists c. split; [|now apply String.eqb_eq].
    apply in_get; [apply Hwf | exact Hin].
  - intros [c [Hget Hu]]. exists (sid, c). split; [reflexivity|].
    apply filter_In. split; [now apply get_some_in|].
    simpl. now apply String.eqb_eq.
Qed.

(* ================================================================= *)
(** ** Broadcast *)

(** C6. When every send succeeds (the send primitive returns normally on
    each registered connection, as one that succeeds on all inputs does),
    [broadcastNotification] invokes the send primitive exactly once for each
    registered connection, in the order in which the registry enumerates
    them at the time of the call (the registration order: a newly
    registered connection comes last), each time with the wire form of the
    notification, and returns all the connection ids: as many as
    [getConnectedClientsCount]. That the primitive is really applied, to
    each id of the snapshot in turn, shows in the registry the call leaves:
    it is the one obtained by applying the primitive to these ids one after
    the other. *)
Theorem C6_broadcast_completeness notification emit reg :
  wellFormed reg ->
  succeedsOn (JsMap.keys reg) emit ->
  map call_socketId
    (emitCalls (snd (broadcastNotification notification emit (freshWorld reg))))
  = JsMap.keys reg
  /\ (forall sid, In sid (JsMap.keys reg) ->
        attemptsOn sid
          (emitCalls
             (snd (broadcastNotification notification emit (freshWorld reg))))
        = 1)
  /\ Forall
       (fun c => call_ok c = true
                 /\ call_payload c = transformToWebSocketDto notification)
       (emitCalls
          (snd (broadcastNotification notification emit (freshWorld reg))))
  /\ connectedClients
       (snd (broadcastNotification notification emit (freshWorld reg)))
     = effectsOf emit (transformToWebSocketDto notification)
         (JsMap.keys reg) reg
  /\ fst (broadcastNotification notification emit (freshWorld reg))
     = JsMap.keys reg
  /\ List.length (fst (broadcastNotification notification emit (freshWorld reg)))
     = getConnectedClientsCount reg
  /\ (forall now uid sid, ~ In sid (JsMap.keys reg) ->
        JsMap.keys (addClient now uid sid reg) = JsMap.keys reg ++ [sid]).
Proof.
  intros [Hnd Hall] Hs.
  assert (Hsock : map call_socketId
            (emitCalls
               (snd (broadcastNotification notification emit (freshWorld reg))))
          = JsMap.keys reg)
    by apply (broadcastNotification_sockets notification emit (freshWorld reg)).
  assert (Hres : fst (broadcastNotification notification emit (freshWorld reg))
                 = JsMap.keys reg).
  { unfold broadcastNotification.
    now rewrite forEachSocket_allSucceed. }
  split; [exact Hsock|]. split; [|split; [|split; [|split; [|split]]]].
  - intros sid Hin. unfold attemptsOn. rewrite Hsock.
    now apply NoDup_count_occ'.
  - unfold broadcastNotification. apply Forall_forall. intros c Hc. split.
    + pose proof (forEachSocket_allOk emit (transformToWebSocketDto notification)
                    (JsMap.keys reg) Hs [] (freshWorld reg)
                    (Forall_nil _)) as Hok.
      rewrite Forall_forall in Hok. now apply Hok.
    + pose proof (forEachSocket_payloads emit
                    (transformToWebSocketDto notification)
                    (JsMap.keys reg) [] (freshWorld reg)
                    (Forall_nil _)) as Hp.
      rewrite Forall_forall in Hp. now apply Hp.
  - unfold broadcastNotification.
    apply (forEachSocket_effects emit _ _ [] (freshWorld reg)).
  - exact Hres.
  - rewrite Hres. unfold getConnectedClientsCount, JsMap.size, JsMap.keys.
    apply length_map.
  - intros now uid sid Hnew. unfold addClient. now apply keys_set_new.
Qed.

Lemma C6_broadcast_completeness_witness :
  wellFormed scenarioRegistry
  /\ succeedsOn (JsMap.keys scenarioRegistry) sendOnce
  /\ map call_socketId
       (emitCalls
          (snd (broadcastNotification scenarioNotification sendOnce
                  (freshWorld scenarioRegistry))))
     = ["c1"; "c2"; "c3"]
  /\ connectedClients
       (snd (broadcastNotification scenarioNotification sendOnce
               (freshWorld scenarioRegistry)))
     = []
  /\ fst (broadcastNotification scenarioNotification sendOnce
            (freshWorld scenarioRegistry))
     = ["c1"; "c2"; "c3"].
Proof.
  assert (Hwf : wellFormed scenarioRegistry) by wellFormed_by_evaluation.
  assert (Hs : succeedsOn (JsMap.keys scenarioRegistry) sendOnce)
    by (intros sid dto reg Hin; reflexivity).
  split; [exact Hwf|]. split; [exact Hs|].
  pose proof (C6_broadcast_completeness scenarioNotification sendOnce
                scenarioRegistry Hwf Hs)
    as [Hsock [_ [_ [Hreg [Hres _]]]]].
  split; [exact Hsock|]. split; [exact Hreg | exact Hres].
Defined.

(* ================================================================= *)
(** ** Failure isolation and eviction *)

(** C3, as the claim states it, fails: with the send primitive of the
    service's unit tests, which throws for c2 and succeeds for c1 and c3,
    the other two sends are completed but c2 is still registered
    afterwards. The service never removes a connection itself. *)
Lemma C3_counterexample :
  fst (broadcastNotification scenarioNotification (mockEmitFunction ["c2"])
         (freshWorld scenarioRegistry))
  = ["c1"; "c3"]
  /\ map call_ok
       (emitCalls
          (snd (broadcastNotification scenarioNotification
                  (mockEmitFunction ["c2"]) (freshWorld scenarioRegistry))))
     = [true; false; true]
  /\ JsMap.get "c2"
       (connectedClients
          (snd (broadcastNotification scenarioNotification
                  (mockEmitFunction ["c2"]) (freshWorld scenarioRegistry))))
     <> None.
Proof. split; [reflexivity|]. split; [reflexivity|]. discriminate. Qed.

(** C3, amended. Let the send primitive be the gateway's [emitToSocket],
    as [sendToAll] injects it. If among the k registered connections the
    send fails for exactly one, c (its socket is gone from the server or
    its [emit] throws), then the broadcast still attempts all k connections
    in order, returns the other k - 1 ids, and afterwards c is absent from
    the registry while every other connection is registered as before. The
    eviction is done by [emitToSocket], not by the service. *)
Theorem C3_failure_isolation_with_eviction server notification reg c :
  wellFormed reg ->
  In c (JsMap.keys reg) ->
  sendFails server c = true ->
  (forall sid, In sid (JsMap.keys reg) -> sid <> c ->
     sendFails server sid = false) ->
  map call_socketId
    (emitCalls
       (snd (broadcastNotification notification
               (NotificationGateway.emitToSocket server "notification")
               (freshWorld reg))))
  = JsMap.keys reg
  /\ fst (broadcastNotification notification
            (NotificationGateway.emitToSocket server "notification")
            (freshWorld reg))
     = filter (fun sid => negb (sid =? c)) (JsMap.keys reg)
  /\ List.length
       (fst (broadcastNotification notification
               (NotificationGateway.emitToSocket server "notification")
               (freshWorld reg)))
     = getConnectedClientsCount reg - 1
  /\ JsMap.get c
       (connectedClients
          (snd (broadcastNotification notification
                  (NotificationGateway.emitToSocket server "notification")
                  (freshWorld reg))))
     = None
  /\ (forall sid, sid <> c ->
        JsMap.get sid
          (connectedClients
             (snd (broadcastNotification notification
                     (NotificationGateway.emitToSocket server "notification")
                     (freshWorld reg))))
        = JsMap.get sid reg).
Proof.
  intros [Hnd Hall] Hin Hc Hothers.
  split; [apply (broadcastNotification_sockets _ _ (freshWorld reg))|].
  assert (Hfilter : filter (fun sid => negb (sendFails server sid))
                      (JsMap.keys reg)
                    = filter (fun sid => negb (sid =? c)) (JsMap.keys reg)).
  { apply filter_ext_in. intros sid Hsid.
    destruct (String.eqb_spec sid c) as [->|Hne].
    - now rewrite Hc.
    - now rewrite (Hothers sid Hsid Hne). }
  assert (Hevict : fold_left (fun r sid => JsMap.delete sid r)
                     (filter (sendFails server) (JsMap.keys reg)) reg
                   = JsMap.delete c reg).
  { apply evict_single; auto.
    intros sid Hsid Hf. destruct (String.eqb_spec sid c) as [->|Hne]; auto.
    rewrite (Hothers sid Hsid Hne) in Hf. discriminate. }
  assert (Hb : fst (broadcastNotification notification
                      (NotificationGateway.emitToSocket server "notification")
                      (freshWorld reg))
               = filter (fun sid => negb (sid =? c)) (JsMap.keys reg)
               /\ connectedClients
                    (snd (broadcastNotification notification
                            (NotificationGateway.emitToSocket server
                               "notification")
                            (freshWorld reg)))
                  = JsMap.delete c reg).
  { unfold broadcastNotification.
    change (connectedClients (freshWorld reg)) with reg.
    destruct (forEachSocket_gateway server "notification"
                (transformToWebSocketDto notification) (JsMap.keys reg) []
                (freshWorld reg)) as [Hres Hreg].
    simpl in Hres, Hreg. rewrite Hres, Hreg, Hfilter, Hevict. now split. }
  destruct Hb as [Hres Hreg]. rewrite Hres, Hreg.
  split; [reflexivity|]. split; [|split].
  - rewrite length_filter_remove_one by assumption.
    unfold getConnectedClientsCount, JsMap.size, JsMap.keys.
    now rewrite length_map.
  - apply get_none_iff. rewrite keys_delete, filter_In.
    intros [_ H]. now rewrite String.eqb_refl in H.
  - intros sid Hne. apply get_delete_other. congruence.
Qed.

Lemma C3_failure_isolation_witness :
  wellFormed scenarioRegistry
  /\ In "c2" (JsMap.keys scenarioRegistry)
  /\ sendFails (serverWith ["c1"; "c3"]) "c2" = true
  /\ fst (broadcastNotification scenarioNotification
            (NotificationGateway.emitToSocket (serverWith ["c1"; "c3"])
               "notification")
            (freshWorld scenarioRegistry))
     = ["c1"; "c3"]
  /\ JsMap.get "c2"
       (connectedClients
          (snd (broadcastNotification scenarioNotification
                  (NotificationGateway.emitToSocket (serverWith ["c1"; "c3"])
                     "notification")
                  (freshWorld scenarioRegistry))))
     = None.
Proof.
  assert (Hwf : wellFormed scenarioRegistry) by wellFormed_by_evaluation.
  assert (Hin : In "c2" (JsMap.keys scenarioRegistry))
    by (simpl; tauto).
  assert (Hc : sendFails (serverWith ["c1"; "c3"]) "c2" = true)
    by reflexivity.
  assert (Hothers : forall sid, In sid (JsMap.keys scenarioRegistry) ->
            sid <> "c2" -> sendFails (serverWith ["c1"; "c3"]) sid = false).
  { simpl. intros sid [<-|[<-|[<-|[]]]] Hne;
      [reflexivity | contradiction | reflexivity]. }
  pose proof (C3_failure_isolation_with_eviction (serverWith ["c1"; "c3"])
                scenarioNotification scenarioRegistry "c2"
                Hwf Hin Hc Hothers) as [_ [Hres [_ [Hgone _]]]].
  repeat split; try assumption; try apply Hwf.
Defined.

(* ================================================================= *)
(** ** What the producer is told after a broadcast *)

(** C2, as the claim states it, fails: three connections are registered
    and the send to c2 fails (its socket is gone from the server), yet the
    success response reports [deliveredTo = 3 = totalClients], not 3 - 1. *)
Lemma C2_counterexample :
  exists resp,
    fst (WebhookController.receiveNotification scenarioUuid scenarioNow
           (serverWith ["c1"; "c3"]) (request None None)
           (freshWorld scenarioRegistry))
    = Returns resp
    /\ resp_status resp = "success"
    /\ List.length
         (filter (fun c => negb (call_ok c))
            (emitCalls
               (snd (WebhookController.receiveNotification scenarioUuid
                       scenarioNow (serverWith ["c1"; "c3"])
                       (request None None) (freshWorld scenarioRegistry)))))
       = 1
    /\ totalClients (deliveryInfo resp) = 3
    /\ deliveredTo (deliveryInfo resp) <> 3 - 1
    /\ ~ deliveredTo (deliveryInfo resp) < totalClients (deliveryInfo resp).
Proof.
  eexists. split; [reflexivity|]. simpl. repeat split; try lia.
Qed.

(** C2, amended. When a broadcast is requested (no target users) while
    k > 0 connections are registered, the producer receives a success
    response whatever the number of per-connection sends that fail; every
    registered connection is attempted; and [deliveredTo] is the number of
    connections registered when the request arrived, equal to
    [totalClients = k]. The ids of the successful sends, which the service
    returns, are dropped by the gateway's [sendToAll]. *)
Theorem C2_broadcast_reports_registered_count uuid now server dto reg :
  getConnectedClientsCount reg <> 0 ->
  WebhookController.hasTargetUsers dto = false ->
  fst (WebhookController.receiveNotification uuid now server dto
         (freshWorld reg))
  = Returns
      {| resp_message := "Notification received and processed successfully";
         resp_status := "success";
         notificationId := Some uuid;
         deliveryInfo :=
           {| totalClients := getConnectedClientsCount reg;
              deliveredTo := getConnectedClientsCount reg;
              targetType := broadcast;
              targetUsers := None |} |}
  /\ map call_socketId
       (emitCalls
          (snd (WebhookController.receiveNotification uuid now server dto
                  (freshWorld reg))))
     = JsMap.keys reg.
Proof.
  intros Hne Hnt. split.
  - now apply (receiveNotification_broadcast uuid now server dto
                 (freshWorld reg)).
  - rewrite receiveNotification_world. simpl connectedClients.
    apply Nat.eqb_neq in Hne. rewrite Hne, Hnt.
    apply (broadcastNotification_sockets _ _ (freshWorld reg)).
Qed.

Lemma C2_broadcast_reports_registered_count_witness :
  getConnectedClientsCount scenarioRegistry <> 0
  /\ WebhookController.hasTargetUsers (request None None) = false
  /\ map call_socketId
       (emitCalls
          (snd (WebhookController.receiveNotification scenarioUuid
                  scenarioNow (serverWith ["c1"; "c3"]) (request None None)
                  (freshWorld scenarioRegistry))))
     = ["c1"; "c2"; "c3"].
Proof.
  assert (Hne : getConnectedClientsCount scenarioRegistry <> 0)
    by (simpl; lia).
  assert (Hnt : WebhookController.hasTargetUsers (request None None) = false)
    by reflexivity.
  split; [exact Hne|]. split; [exact Hnt|].
  exact (proj2 (C2_broadcast_reports_registered_count scenarioUuid scenarioNow
                  (serverWith ["c1"; "c3"]) (request None None)
                  scenarioRegistry Hne Hnt)).
Defined.

(* ================================================================= *)
(** ** An empty list of target users *)

(** C1, as the claim states it, fails: [sendToUsers] on the empty list
    returns normally (the empty list of ids, as for an identity that is
    offline), and a webhook request whose [targetUsers] is the empty array
    is answered with success after a broadcast to all three registered
    connections. *)
Lemma C1_counterexample :
  sendToUsers scenarioNotification [] (mockEmitFunction [])
    (freshWorld scenarioRegistry)
  = ([], freshWorld scenarioRegistry)
  /\ exists resp,
       fst (WebhookController.receiveNotification scenarioUuid scenarioNow
              (serverWith ["c1"; "c2"; "c3"]) (request (Some []) None)
              (freshWorld scenarioRegistry))
       = Returns resp
       /\ resp_status resp = "success"
       /\ targetType (deliveryInfo resp) = broadcast
       /\ deliveredTo (deliveryInfo resp) = 3
       /\ map call_socketId
            (emitCalls
               (snd (WebhookController.receiveNotification scenarioUuid
                       scenarioNow (serverWith ["c1"; "c2"; "c3"])
                       (request (Some []) None)
                       (freshWorld scenarioRegistry))))
          = ["c1"; "c2"; "c3"].
Proof.
  split; [reflexivity|]. eexists. split; [reflexivity|].
  simpl. repeat split.
Qed.

(** C1, amended. [sendToUsers(n, [], emit)] makes no call to the send
    primitive, leaves the service as it was and returns the empty list of
    ids; it does not signal an error. A webhook request whose
    [targetUsers] is the empty array is treated exactly as one without
    [targetUsers]: with connections registered, the notification is
    broadcast to every registered connection and the response is a success
    with [targetType = broadcast]. *)
Theorem C1_empty_target_list_is_broadcast
    notification emit w uuid now server dto reg :
  wh_targetUsers dto = Some [] ->
  getConnectedClientsCount reg <> 0 ->
  sendToUsers notification [] emit w = ([], w)
  /\ fst (WebhookController.receiveNotification uuid now server dto
            (freshWorld reg))
     = Returns
         {| resp_message := "Notification received and processed successfully";
            resp_status := "success";
            notificationId := Some uuid;
            deliveryInfo :=
              {| totalClients := getConnectedClientsCount reg;
                 deliveredTo := getConnectedClientsCount reg;
                 targetType := broadcast;
                 targetUsers := None |} |}
  /\ map call_socketId
       (emitCalls
          (snd (WebhookController.receiveNotification uuid now server dto
                  (freshWorld reg))))
     = JsMap.keys reg.
Proof.
  intros Hempty Hne. split; [reflexivity|].
  assert (Hnt : WebhookController.hasTargetUsers dto = false)
    by (unfold WebhookController.hasTargetUsers; now rewrite Hempty).
  split.
  - now apply (receiveNotification_broadcast uuid now server dto
                 (freshWorld reg)).
  - rewrite receiveNotification_world. simpl connectedClients.
    apply Nat.eqb_neq in Hne. rewrite Hne, Hnt.
    apply (broadcastNotification_sockets _ _ (freshWorld reg)).
Qed.

Lemma C1_empty_target_list_witness :
  wh_targetUsers (request (Some []) None) = Some []
  /\ getConnectedClientsCount scenarioRegistry <> 0
  /\ map call_socketId
       (emitCalls
          (snd (WebhookController.receiveNotification scenarioUuid
                  scenarioNow (serverWith ["c1"; "c2"; "c3"])
                  (request (Some []) None) (freshWorld scenarioRegistry))))
     = ["c1"; "c2"; "c3"].
Proof.
  assert (Hempty : wh_targetUsers (request (Some []) None) = Some [])
    by reflexivity.
  assert (Hne : getConnectedClientsCount scenarioRegistry <> 0)
    by (simpl; lia).
  split; [exact Hempty|]. split; [exact Hne|].
  exact (proj2 (proj2
    (C1_empty_target_list_is_broadcast scenarioNotification
       (mockEmitFunction []) (freshWorld scenarioRegistry)
       scenarioUuid scenarioNow (serverWith ["c1"; "c2"; "c3"])
       (request (Some []) None) scenarioRegistry Hempty Hne))).
Defined.

(* ================================================================= *)
(** ** Targeted delivery *)

Lemma sendToUsers_preserving notification emit reg users :
  wellFormed reg ->
  preservesOn (JsMap.keys reg) emit ->
  map call_socketId
    (emitCalls (snd (sendToUsers notification users emit (freshWorld reg))))
  = flat_map (fun uid => socketsOf uid reg) users.
Proof.
  intros Hwf Hp. unfold sendToUsers.
  rewrite <- (wellFormed_socketIds reg Hwf) in Hp.
  destruct (forEachUser_preserves emit (transformToWebSocketDto notification)
              users [] (freshWorld reg) Hp) as [_ H].
  exact H.
Qed.


Lemma sendToUsers_single notification uid emit w :
  sendToUsers notification [uid] emit w
  = forEachSocket emit (transformToWebSocketDto notification)
      (socketsOf uid (connectedClients w)) [] w.
Proof.
  unfold sendToUsers, socketsOf. simpl.
  now destruct (forEachSocket emit _ _ [] w).
Qed.

Lemma sendToUsers_pair notification a b emit w :
  sendToUsers notification [a; b] emit w
  = forEachSocket emit (transformToWebSocketDto notification)
      (socketsOf b
         (connectedClients
            (snd (forEachSocket emit (transformToWebSocketDto notification)
                    (socketsOf a (connectedClients w)) [] w))))
      (fst (forEachSocket emit (transformToWebSocketDto notification)
              (socketsOf a (connectedClients w)) [] w))
      (snd (forEachSocket emit (transformToWebSocketDto notification)
              (socketsOf a (connectedClients w)) [] w)).
Proof.
  unfold sendToUsers, socketsOf. simpl.
  destruct (forEachSocket emit _ _ [] w) as [s1 w1]. simpl.
  now destruct (forEachSocket emit _ _ s1 w1).
Qed.

(** C7. [sendToUsers(n, [a, b], emit)] invokes the send primitive only on
    connections registered under a or under b, and never on a connection
    registered under another identity. It sends once to each connection
    registered under a, in order, then once to each connection that is
    registered under b when a's sends are over; the primitive is really
    applied to them: the registry the call leaves is the one obtained by
    applying the primitive to these connections one after the other. When
    the sends leave the registry as it is (as successful sends do), the
    attempts are exactly the connections of a followed by those of b; an
    identity without connections contributes no attempt. In the scenario
    registry (c1 and c3 under alice, c2 under bob) with sends that succeed
    on c1 and c3, [sendToUsers(n, ['alice'], emit)] applies the primitive
    to c1 and then to c3, to nothing else, and returns these two ids. *)
Theorem C7_targeted_addressing notification emit reg a b :
  wellFormed reg ->
  onlyEvicts emit ->
  (forall sid,
      In sid (map call_socketId
                (emitCalls
                   (snd (sendToUsers notification [a; b] emit
                           (freshWorld reg))))) ->
      exists client,
        JsMap.get sid reg = Some client
        /\ (userId client = a \/ userId client = b))
  /\ (forall sid client,
        JsMap.get sid reg = Some client ->
        userId client <> a -> userId client <> b ->
        attemptsOn sid
          (emitCalls
             (snd (sendToUsers notification [a; b] emit (freshWorld reg))))
        = 0)
  /\ map call_socketId
       (emitCalls
          (snd (sendToUsers notification [a; b] emit (freshWorld reg))))
     = connectionsOf a reg
       ++ connectionsOf b
            (effectsOf emit (transformToWebSocketDto notification)
               (connectionsOf a reg) reg)
  /\ connectedClients
       (snd (sendToUsers notification [a; b] emit (freshWorld reg)))
     = effectsOf emit (transformToWebSocketDto notification)
         (connectionsOf b
            (effectsOf emit (transformToWebSocketDto notification)
               (connectionsOf a reg) reg))
         (effectsOf emit (transformToWebSocketDto notification)
            (connectionsOf a reg) reg)
  /\ (preservesOn (JsMap.keys reg) emit ->
        map call_socketId
          (emitCalls
             (snd (sendToUsers notification [a; b] emit (freshWorld reg))))
        = socketsOf a reg ++ socketsOf b reg)
  /\ (forall u, socketsOf u reg = [] ->
        emitCalls (snd (sendToUsers notification [u] emit (freshWorld reg)))
        = [])
  /\ (succeedsOn ["c1"; "c3"] emit ->
        map call_socketId
          (emitCalls
             (snd (sendToUsers notification ["alice"] emit
                     (freshWorld scenarioRegistry))))
        = ["c1"; "c3"]
        /\ connectedClients
             (snd (sendToUsers notification ["alice"] emit
                     (freshWorld scenarioRegistry)))
           = effectsOf emit (transformToWebSocketDto notification)
               ["c1"; "c3"] scenarioRegistry
        /\ fst (sendToUsers notification ["alice"] emit
                  (freshWorld scenarioRegistry))
           = ["c1"; "c3"]
        /\ List.length
             (fst (sendToUsers notification ["alice"] emit
                     (freshWorld scenarioRegistry)))
           = 2).
Proof.
  intros Hwf Hev.
  assert (Honly : forall sid,
            In sid (map call_socketId
                      (emitCalls
                         (snd (sendToUsers notification [a; b] emit
                                 (freshWorld reg))))) ->
            exists client,
              JsMap.get sid reg = Some client
              /\ (userId client = a \/ userId client = b)).
  { intros sid Hin. unfold sendToUsers in Hin.
    apply (forEachUser_targets emit _ [a; b] Hev) in Hin.
    destruct Hin as [[]|[uid [client [Hu [Hval [Huid Hsid]]]]]].
    exists client. split.
    - rewrite <- Hsid. now apply registered_client.
    - simpl in Hu. destruct Hu as [<-|[<-|[]]]; auto. }
  assert (Hexact :
    map call_socketId
      (emitCalls
         (snd (sendToUsers notification [a; b] emit (freshWorld reg))))
    = connectionsOf a reg
      ++ connectionsOf b
           (effectsOf emit (transformToWebSocketDto notification)
              (connectionsOf a reg) reg)
    /\ connectedClients
         (snd (sendToUsers notification [a; b] emit (freshWorld reg)))
       = effectsOf emit (transformToWebSocketDto notification)
           (connectionsOf b
              (effectsOf emit (transformToWebSocketDto notification)
                 (connectionsOf a reg) reg))
           (effectsOf emit (transformToWebSocketDto notification)
              (connectionsOf a reg) reg)).
  { rewrite sendToUsers_pair.
    change (connectedClients (freshWorld reg)) with reg.
    pose proof (forEachSocket_effects emit
                  (transformToWebSocketDto notification)
                  (socketsOf a reg) [] (freshWorld reg)) as Hreg1.
    pose proof (forEachSocket_sockets emit
                  (transformToWebSocketDto notification)
                  (socketsOf a reg) [] (freshWorld reg)) as Hlog1.
    pose proof (forEachSocket_onlyEvicts emit
                  (transformToWebSocketDto notification)
                  (socketsOf a reg) Hev [] (freshWorld reg)) as Hincl1.
    change (connectedClients (freshWorld reg)) with reg in Hreg1, Hincl1.
    change (emitCalls (freshWorld reg)) with (@nil EmitCall) in Hlog1.
    simpl in Hlog1.
    set (r1 := forEachSocket emit (transformToWebSocketDto notification)
                 (socketsOf a reg) [] (freshWorld reg)) in *.
    rewrite forEachSocket_sockets, forEachSocket_effects, Hlog1, Hreg1.
    rewrite (socketsOf_connectionsOf a reg (wellFormed_keyed reg Hwf)).
    rewrite (socketsOf_connectionsOf a reg (wellFormed_keyed reg Hwf))
      in Hreg1.
    rewrite (socketsOf_connectionsOf b
               (effectsOf emit (transformToWebSocketDto notification)
                  (connectionsOf a reg) reg)).
    - now split.
    - intros entry Hentry. apply (wellFormed_keyed reg Hwf).
      apply Hincl1. now rewrite Hreg1. }
  split; [exact Honly|].
  split; [|split; [exact (proj1 Hexact)|split; [exact (proj2 Hexact)|]]].
  - intros sid client Hget Ha Hb. unfold attemptsOn.
    apply count_occ_not_In. intros Hin.
    destruct (Honly sid Hin) as [client' [Hget' Hu]].
    rewrite Hget in Hget'. injection Hget' as <-. tauto.
  - split; [|split].
    + intros Hp. rewrite sendToUsers_preserving by assumption.
      simpl. now rewrite app_nil_r.
    + intros u Hnone. unfold sendToUsers. simpl.
      unfold socketsOf in Hnone. now rewrite Hnone.
    + intros Hs. rewrite sendToUsers_single.
      change (socketsOf "alice" (connectedClients (freshWorld scenarioRegistry)))
        with ["c1"; "c3"].
      rewrite forEachSocket_sockets, forEachSocket_effects.
      rewrite forEachSocket_allSucceed by exact Hs.
      repeat split.
Qed.

Lemma C7_targeted_addressing_witness :
  wellFormed scenarioRegistry
  /\ onlyEvicts
       (NotificationGateway.emitToSocket (serverWith ["c1"]) "notification")
  /\ attemptsOn "c2"
       (emitCalls
          (snd (sendToUsers scenarioNotification ["alice"; "carol"]
                  (NotificationGateway.emitToSocket (serverWith ["c1"])
                     "notification")
                  (freshWorld scenarioRegistry))))
     = 0
  /\ map call_socketId
       (emitCalls
          (snd (sendToUsers scenarioNotification ["alice"; "carol"]
                  (NotificationGateway.emitToSocket (serverWith ["c1"])
                     "notification")
                  (freshWorld scenarioRegistry))))
     = ["c1"; "c3"]
  /\ JsMap.keys
       (connectedClients
          (snd (sendToUsers scenarioNotification ["alice"; "carol"]
                  (NotificationGateway.emitToSocket (serverWith ["c1"])
                     "notification")
                  (freshWorld scenarioRegistry))))
     = ["c1"; "c2"].
Proof.
  assert (Hwf : wellFormed scenarioRegistry) by wellFormed_by_evaluation.
  assert (Hev : onlyEvicts
                  (NotificationGateway.emitToSocket (serverWith ["c1"])
                     "notification"))
    by apply emitToSocket_onlyEvicts.
  split; [exact Hwf|]. split; [exact Hev|].
  pose proof (C7_targeted_addressing scenarioNotification
                (NotificationGateway.emitToSocket (serverWith ["c1"])
                   "notification")
                scenarioRegistry "alice" "carol" Hwf Hev)
    as [_ [Hnever [Hattempts [Hregistry _]]]].
  split; [|split].
  - apply (Hnever "c2"
             {| socketId := "c2"; userId := "bob"; connectedAt := 2000%Z |});
      [reflexivity | discriminate | discriminate].
  - rewrite Hattempts. reflexivity.
  - rewrite Hregistry. reflexivity.
Defined.

(* ================================================================= *)
(** ** Repeated identities in the target list *)




(* ================================================================= *)
(** * Further properties of the service, the gateway and the guard *)

(* ================================================================= *)
(** ** Registry operations *)

Section JsMapUpdates.
Variable V : Type.
Implicit Types (m : JsMap.t V) (k : string) (v : V).

Lemma get_set_same k v m : JsMap.get k (JsMap.set k v m) = Some v.
Proof.
  induction m as [|[k' v'] rest IH]; simpl.
  - now rewrite String.eqb_refl.
  - destruct (String.eqb_spec k' k) as [->|Hne]; simpl.
    + now rewrite String.eqb_refl.
    + destruct (String.eqb_spec k' k); [contradiction | exact IH].
Qed.

Lemma get_set_other k k' v m :
  k' <> k -> JsMap.get k' (JsMap.set k v m) = JsMap.get k' m.
Proof.
  intros Hne. induction m as [|[k0 v0] rest IH]; simpl.
  - destruct (String.eqb_spec k k'); [congruence | reflexivity].
  - destruct (String.eqb_spec k0 k) as [->|Hk]; simpl.
    + destruct (String.eqb_spec k k'); [congruence | reflexivity].
    + now rewrite IH.
Qed.

Lemma set_in k v m : In (k, v) (JsMap.set k v m).
Proof.
  induction m as [|[k' v'] rest IH]; simpl; [now left|].
  destruct (k' =? k); [now left | now right].
Qed.

Lemma delete_set k v m :
  JsMap.delete k (JsMap.set k v m) = JsMap.delete k m.
Proof.
  induction m as [|[k' v'] rest IH]; simpl.
  - now rewrite String.eqb_refl.
  - destruct (String.eqb_spec k' k) as [->|Hne]; simpl.
    + now rewrite String.eqb_refl.
    + destruct (String.eqb_spec k' k); [contradiction | now rewrite IH].
Qed.

Lemma get_delete_same k m : JsMap.get k (JsMap.delete k m) = None.
Proof.
  apply get_none_iff. rewrite keys_delete, filter_In.
  intros [_ H]. now rewrite String.eqb_refl in H.
Qed.

Lemma size_keys m : JsMap.size m = List.length (JsMap.keys m).
Proof. unfold JsMap.size, JsMap.keys. now rewrite length_map. Qed.
End JsMapUpdates.

(** X1. [addClient(userId, socketId)] makes the socket id resolve to a
    client with that user id and the current time, and leaves every other
    socket id as it was; the user is then connected. A new socket id is
    enumerated last and the count grows by one; an id that is already
    registered is overwritten in place: order and count do not change. *)
Theorem addClient_registers now uid sid reg :
  JsMap.get sid (addClient now uid sid reg)
  = Some {| socketId := sid; userId := uid; connectedAt := now |}
  /\ (forall other, other <> sid ->
        JsMap.get other (addClient now uid sid reg) = JsMap.get other reg)
  /\ isUserConnected uid (addClient now uid sid reg) = true
  /\ (~ In sid (JsMap.keys reg) ->
        JsMap.keys (addClient now uid sid reg) = JsMap.keys reg ++ [sid]
        /\ getConnectedClientsCount (addClient now uid sid reg)
           = S (getConnectedClientsCount reg))
  /\ (In sid (JsMap.keys reg) ->
        JsMap.keys (addClient now uid sid reg) = JsMap.keys reg
        /\ getConnectedClientsCount (addClient now uid sid reg)
           = getConnectedClientsCount reg).
Proof.
  unfold addClient, getConnectedClientsCount.
  split; [apply get_set_same|]. split; [|split; [|split]].
  - intros other Hne. now apply get_set_other.
  - unfold isUserConnected, getClientsByUserId.
    set (client := {| socketId := sid; userId := uid; connectedAt := now |}).
    assert (Hin : In client
              (filter (fun c => userId c =? uid)
                 (JsMap.values (JsMap.set sid client reg)))).
    { apply filter_In. split; [|apply String.eqb_refl].
      unfold JsMap.values. change client with (snd (sid, client)).
      apply in_map, set_in. }
    destruct (filter _ _); [contradiction | reflexivity].
  - intros Hnew. rewrite !size_keys, keys_set_new by exact Hnew.
    split; [reflexivity|]. rewrite length_app. simpl. lia.
  - intros Hold. rewrite !size_keys, keys_set_old by exact Hold. now split.
Qed.

Lemma addClient_registers_witness :
  ~ In "c4" (JsMap.keys scenarioRegistry)
  /\ In "c2" (JsMap.keys scenarioRegistry)
  /\ JsMap.keys (addClient scenarioNow "carol" "c4" scenarioRegistry)
     = JsMap.keys scenarioRegistry ++ ["c4"]
  /\ JsMap.keys (addClient scenarioNow "carol" "c2" scenarioRegistry)
     = JsMap.keys scenarioRegistry.
Proof.
  assert (Hnew : ~ In "c4" (JsMap.keys scenarioRegistry))
    by (simpl; intuition discriminate).
  assert (Hold : In "c2" (JsMap.keys scenarioRegistry)) by (simpl; tauto).
  split; [exact Hnew|]. split; [exact Hold|]. split.
  - exact (proj1 (proj1 (proj2 (proj2 (proj2
      (addClient_registers scenarioNow "carol" "c4" scenarioRegistry))))
      Hnew)).
  - exact (proj1 (proj2 (proj2 (proj2 (proj2
      (addClient_registers scenarioNow "carol" "c2" scenarioRegistry))))
      Hold)).
Defined.

(** X2. [removeClient(socketId)] makes the socket id unknown and leaves
    every other socket id, and the order of the remaining ones, as it was.
    It does nothing for an id that is not registered, and doing it twice is
    the same as doing it once. On a registry as the service builds it,
    removing a registered id lowers the count by exactly one. *)
Theorem removeClient_removes sid reg :
  JsMap.get sid (removeClient sid reg) = None
  /\ (forall other, other <> sid ->
        JsMap.get other (removeClient sid reg) = JsMap.get other reg)
  /\ JsMap.keys (removeClient sid reg)
     = filter (fun k => negb (k =? sid)) (JsMap.keys reg)
  /\ removeClient sid (removeClient sid reg) = removeClient sid reg
  /\ (JsMap.get sid reg = None -> removeClient sid reg = reg)
  /\ (wellFormed reg -> In sid (JsMap.keys reg) ->
        getConnectedClientsCount (removeClient sid reg)
        = getConnectedClientsCount reg - 1).
Proof.
  split; [|split; [|split; [|split; [|split]]]].
  - rewrite removeClient_delete. apply get_delete_same.
  - intros other Hne. rewrite removeClient_delete.
    apply get_delete_other. congruence.
  - rewrite removeClient_delete. apply keys_delete.
  - apply removeClient_twice.
  - intros Hnone. unfold removeClient. now rewrite Hnone.
  - intros [Hnd _] Hin. unfold getConnectedClientsCount.
    rewrite !size_keys, removeClient_delete, keys_delete.
    now apply length_filter_remove_one.
Qed.

Lemma removeClient_removes_witness :
  wellFormed scenarioRegistry
  /\ In "c2" (JsMap.keys scenarioRegistry)
  /\ getConnectedClientsCount (removeClient "c2" scenarioRegistry) = 3 - 1
  /\ removeClient "c7" scenarioRegistry = scenarioRegistry.
Proof.
  assert (Hwf : wellFormed scenarioRegistry) by wellFormed_by_evaluation.
  assert (Hin : In "c2" (JsMap.keys scenarioRegistry)) by (simpl; tauto).
  split; [exact Hwf|]. split; [exact Hin|]. split.
  - exact (proj2 (proj2 (proj2 (proj2 (proj2
      (removeClient_removes "c2" scenarioRegistry))))) Hwf Hin).
  - exact (proj1 (proj2 (proj2 (proj2 (proj2
      (removeClient_removes "c7" scenarioRegistry))))) eq_refl).
Defined.

(** X3. Registering a socket id and then removing it is the same as just
    removing it; for an id that was not registered before, it gives back
    the registry one started from. *)
Theorem addClient_then_removeClient now uid sid reg :
  removeClient sid (addClient now uid sid reg) = removeClient sid reg
  /\ (~ In sid (JsMap.keys reg) ->
        removeClient sid (addClient now uid sid reg) = reg).
Proof.
  assert (H : removeClient sid (addClient now uid sid reg)
              = removeClient sid reg).
  { rewrite !removeClient_delete. unfold addClient. apply delete_set. }
  split; [exact H|]. intros Hnew. rewrite H, removeClient_delete.
  now apply delete_absent.
Qed.

Lemma addClient_then_removeClient_witness :
  ~ In "c4" (JsMap.keys scenarioRegistry)
  /\ removeClient "c4" (addClient scenarioNow "carol" "c4" scenarioRegistry)
     = scenarioRegistry.
Proof.
  assert (Hnew : ~ In "c4" (JsMap.keys scenarioRegistry))
    by (simpl; intuition discriminate).
  split; [exact Hnew|].
  exact (proj2 (addClient_then_removeClient scenarioNow "carol" "c4"
                  scenarioRegistry) Hnew).
Defined.

(** X4. A socket id belongs to one user at a time: registering an id that
    is already registered, under another user, moves the connection. It
    is then among the new user's connections and no longer among the
    previous user's; the count is unchanged and the registry stays
    well formed. *)
Theorem addClient_moves_connection now uid sid reg previous :
  wellFormed reg ->
  JsMap.get sid reg = Some previous ->
  userId previous <> uid ->
  In sid (socketsOf uid (addClient now uid sid reg))
  /\ ~ In sid (socketsOf (userId previous) (addClient now uid sid reg))
  /\ getConnectedClientsCount (addClient now uid sid reg)
     = getConnectedClientsCount reg
  /\ wellFormed (addClient now uid sid reg).
Proof.
  intros Hwf Hget Hne.
  assert (Hwf' : wellFormed (addClient now uid sid reg))
    by now apply wellFormed_addClient.
  assert (Hmine : In sid (socketsOf uid (addClient now uid sid reg))).
  { apply socketsOf_client.
    exists {| socketId := sid; userId := uid; connectedAt := now |}.
    split; [|now split]. unfold addClient, JsMap.values.
    change {| socketId := sid; userId := uid; connectedAt := now |}
      with (snd (sid, {| socketId := sid; userId := uid;
                         connectedAt := now |})).
    apply in_map, set_in. }
  split; [exact Hmine|]. split; [|split; [|exact Hwf']].
  - intros Hother. apply Hne.
    now apply (socketsOf_same_user (addClient now uid sid reg) sid).
  - unfold addClient, getConnectedClientsCount.
    rewrite !size_keys, keys_set_old; [reflexivity|].
    destruct (in_dec string_dec sid (JsMap.keys reg)) as [Hin|Hout];
      [exact Hin|].
    apply get_none_iff in Hout. congruence.
Qed.

Lemma addClient_moves_connection_witness :
  wellFormed scenarioRegistry
  /\ In "c2" (socketsOf "alice" (addClient scenarioNow "alice" "c2"
                                   scenarioRegistry))
  /\ ~ In "c2" (socketsOf "bob" (addClient scenarioNow "alice" "c2"
                                   scenarioRegistry)).
Proof.
  assert (Hwf : wellFormed scenarioRegistry) by wellFormed_by_evaluation.
  split; [exact Hwf|].
  assert (Hget : JsMap.get "c2" scenarioRegistry
                 = Some {| socketId := "c2"; userId := "bob";
                           connectedAt := 2000%Z |}) by reflexivity.
  assert (Hne : userId {| socketId := "c2"; userId := "bob";
                          connectedAt := 2000%Z |} <> "alice")
    by discriminate.
  pose proof (addClient_moves_connection scenarioNow "alice" "c2"
                scenarioRegistry _ Hwf Hget Hne) as [H1 [H2 _]].
  split; [exact H1 | exact H2].
Defined.

(* ================================================================= *)
(** ** Connected users *)

Lemma uniqueInOrder_In x xs : forall seen,
  In x (uniqueInOrder seen xs) <-> In x xs /\ ~ In x seen.
Proof.
  induction xs as [|y rest IH]; intros seen; simpl; [tauto|].
  change (existsb (String.eqb y) seen) with (isIn y seen).
  destruct (isIn y seen) eqn:E.
  - apply isIn_true_iff in E. rewrite IH. split.
    + intros [H1 H2]. tauto.
    + intros [[<-|H1] H2]; [contradiction | tauto].
  - assert (Hy : ~ In y seen).
    { intros H. apply isIn_true_iff in H. congruence. }
    simpl. rewrite IH. simpl. split.
    + intros [<-|[H1 H2]]; [tauto|]. split; [tauto|]. intros H. apply H2.
      now right.
    + intros [[<-|H1] H2]; [now left|].
      destruct (string_dec y x) as [->|Hne]; [now left|]. right.
      split; [exact H1|]. intros [H|H]; [contradiction | now apply H2].
Qed.

Lemma uniqueInOrder_NoDup xs : forall seen, NoDup (uniqueInOrder seen xs).
Proof.
  induction xs as [|y rest IH]; intros seen; simpl; [constructor|].
  destruct (existsb (String.eqb y) seen); [apply IH|].
  constructor; [|apply IH]. rewrite uniqueInOrder_In. intros [_ H].
  apply H. now left.
Qed.

Lemma isUserConnected_iff uid reg :
  isUserConnected uid reg = true
  <-> exists client, In client (getConnectedClients reg)
                     /\ userId client = uid.
Proof.
  unfold isUserConnected, getClientsByUserId, getConnectedClients. split.
  - intros H.
    destruct (filter (fun c => userId c =? uid) (JsMap.values reg))
      as [|c rest] eqn:E; [discriminate|].
    assert (Hc : In c (filter (fun c => userId c =? uid) (JsMap.values reg)))
      by (rewrite E; now left).
    apply filter_In in Hc. exists c. split; [tauto|].
    now apply String.eqb_eq.
  - intros [c [Hin Hu]].
    assert (Hc : In c (filter (fun c => userId c =? uid) (JsMap.values reg))).
    { apply filter_In. split; [exact Hin | now apply String.eqb_eq]. }
    destruct (filter _ _); [contradiction | reflexivity].
Qed.

(** X5. [getConnectedUsers] lists every user that has at least one
    connection, each once: a user id is in the list exactly when
    [isUserConnected] holds for it, that is exactly when some registered
    client carries it. *)
Theorem getConnectedUsers_distinct_and_complete reg :
  NoDup (getConnectedUsers reg)
  /\ forall uid,
       (In uid (getConnectedUsers reg) <-> isUserConnected uid reg = true)
       /\ (isUserConnected uid reg = true
           <-> exists client, In client (getConnectedClients reg)
                              /\ userId client = uid).
Proof.
  split; [apply uniqueInOrder_NoDup|]. intros uid.
  split; [|apply isUserConnected_iff].
  unfold getConnectedUsers. rewrite uniqueInOrder_In, isUserConnected_iff.
  unfold getConnectedClients. rewrite in_map_iff. split.
  - intros [[c [Hu Hin]] _]. now exists c.
  - intros [c [Hin Hu]]. split; [now exists c | tauto].
Qed.

(** Counting the clients of one user in a list of clients. *)
Lemma count_split_user x seen (l : list ConnectedClient) :
  ~ In x seen ->
  List.length (filter (fun c => negb (isIn (userId c) seen)) l)
  = List.length (filter (fun c => userId c =? x) l)
    + List.length (filter (fun c => negb (isIn (userId c) (x :: seen))) l).
Proof.
  intros Hx. induction l as [|c rest IH]; [reflexivity|].
  cbn [filter].
  change (isIn (userId c) (x :: seen))
    with ((userId c =? x) || isIn (userId c) seen).
  destruct (String.eqb_spec (userId c) x) as [Heq|Hne].
  - assert (E : isIn (userId c) seen = false).
    { destruct (isIn (userId c) seen) eqn:E; [|reflexivity].
      apply isIn_true_iff in E. rewrite Heq in E. contradiction. }
    rewrite E. cbn [negb orb List.length]. rewrite IH. lia.
  - cbn [orb]. destruct (isIn (userId c) seen); cbn [negb List.length];
      rewrite IH; lia.
Qed.

Lemma clients_partition (l : list ConnectedClient) : forall seen,
  list_sum
    (map (fun uid => List.length (filter (fun c => userId c =? uid) l))
       (uniqueInOrder seen (map userId l)))
  = List.length (filter (fun c => negb (isIn (userId c) seen)) l).
Proof.
  induction l as [|c rest IH]; intros seen; simpl; [reflexivity|].
  change (existsb (String.eqb (userId c)) seen) with (isIn (userId c) seen).
  destruct (isIn (userId c) seen) eqn:E; simpl.
  - rewrite <- IH. f_equal. apply map_ext_in. intros uid Huid.
    apply uniqueInOrder_In in Huid. destruct Huid as [_ Hnot].
    destruct (String.eqb_spec (userId c) uid) as [Heq|_]; [|reflexivity].
    exfalso. apply Hnot. rewrite <- Heq. now apply isIn_true_iff.
  - rewrite String.eqb_refl. simpl. f_equal.
    assert (Hx : ~ In (userId c) seen).
    { intros H. apply isIn_true_iff in H. congruence. }
    rewrite (count_split_user (userId c) seen rest Hx).
    rewrite <- (IH (userId c :: seen)). f_equal. f_equal.
    apply map_ext_in. intros uid Huid.
    apply uniqueInOrder_In in Huid. destruct Huid as [_ Hnot].
    destruct (String.eqb_spec (userId c) uid) as [Heq|_]; [|reflexivity].
    exfalso. apply Hnot. now left.
Qed.

Lemma clients_of_users_sum reg :
  list_sum
    (map (fun uid => List.length (getClientsByUserId uid reg))
       (getConnectedUsers reg))
  = getConnectedClientsCount reg.
Proof.
  unfold getConnectedUsers, getClientsByUserId, getConnectedClientsCount.
  rewrite clients_partition. rewrite filter_all by reflexivity.
  unfold JsMap.values, JsMap.size. apply length_map.
Qed.

(** X6. The connections are partitioned by user: the numbers of clients
    that [getClientsByUserId] returns for the users of [getConnectedUsers]
    add up to [getConnectedClientsCount]; a user that is not listed has no
    client. *)
Theorem connections_partitioned_by_user reg :
  list_sum
    (map (fun uid => List.length (getClientsByUserId uid reg))
       (getConnectedUsers reg))
  = getConnectedClientsCount reg
  /\ forall uid, ~ In uid (getConnectedUsers reg) ->
       getClientsByUserId uid reg = [].
Proof.
  split; [apply clients_of_users_sum|]. intros uid Hout.
  unfold getClientsByUserId. apply filter_none. intros c Hc.
  destruct (String.eqb_spec (userId c) uid) as [Hu|]; [|reflexivity].
  exfalso. apply Hout. unfold getConnectedUsers.
  apply uniqueInOrder_In. split; [|tauto].
  rewrite <- Hu. now apply in_map.
Qed.

Lemma connections_partitioned_by_user_witness :
  ~ In "carol" (getConnectedUsers scenarioRegistry)
  /\ getClientsByUserId "carol" scenarioRegistry = [].
Proof.
  assert (Hout : ~ In "carol" (getConnectedUsers scenarioRegistry))
    by (simpl; intuition discriminate).
  split; [exact Hout|].
  exact (proj2 (connections_partitioned_by_user scenarioRegistry)
           "carol" Hout).
Defined.

Lemma list_sum_without (f : string -> nat) (a : string) (l : list string) :
  NoDup l -> (~ In a l -> f a = 0) ->
  list_sum (map f l)
  = f a + list_sum (map f (filter (fun x => negb (x =? a)) l)).
Proof.
  induction l as [|x rest IH]; simpl; intros Hnd Hzero.
  - rewrite Hzero; tauto.
  - inversion Hnd as [|? ? Hnot Hrest]; subst.
    destruct (String.eqb_spec x a) as [->|Hne]; simpl.
    + rewrite filter_all; [reflexivity|].
      intros y Hy. destruct (String.eqb_spec y a) as [->|]; [contradiction|].
      reflexivity.
    + rewrite IH; [lia | exact Hrest |].
      intros Hout. apply Hzero. intros [H|H]; [contradiction | now apply Hout].
Qed.

(** X7. [getConnectionStats] accounts for every connection once:
    [totalConnections] is [anonymousConnections] plus the numbers of
    connections of the users listed in [connectedUsers]; that list has no
    duplicates and never contains the id anonymous. *)
Theorem getConnectionStats_accounts_for_all reg :
  totalConnections (NotificationGateway.getConnectionStats reg)
  = anonymousConnections (NotificationGateway.getConnectionStats reg)
    + list_sum
        (map (fun uid => List.length (getClientsByUserId uid reg))
           (connectedUsers (NotificationGateway.getConnectionStats reg)))
  /\ NoDup (connectedUsers (NotificationGateway.getConnectionStats reg))
  /\ ~ In "anonymous"
         (connectedUsers (NotificationGateway.getConnectionStats reg)).
Proof.
  unfold NotificationGateway.getConnectionStats. simpl.
  split; [|split].
  - rewrite <- clients_of_users_sum.
    apply (list_sum_without
             (fun uid => List.length (getClientsByUserId uid reg))).
    + apply uniqueInOrder_NoDup.
    + intros Hout. unfold getClientsByUserId.
      rewrite filter_none; [reflexivity|].
      intros c Hc.
      destruct (String.eqb_spec (userId c) "anonymous") as [Hu|];
        [|reflexivity].
      exfalso. apply Hout. unfold getConnectedUsers.
      apply uniqueInOrder_In. split; [|tauto].
      rewrite <- Hu. now apply in_map.
  - apply NoDup_filter, uniqueInOrder_NoDup.
  - rewrite filter_In. intros [_ H]. discriminate.
Qed.

(* ================================================================= *)
(** ** What the delivery loops return and what they do to the registry *)


(** X9. The service itself never adds or removes a connection while
    delivering. With a send primitive that can only evict, every entry
    present after a delivery was present before; with one that leaves the
    registry alone on the registered sockets, even if it throws, the
    registry after [broadcastNotification] or [sendToUsers] is the
    registry before. *)
Theorem delivery_leaves_registration_to_the_primitive
    notification emit reg users :
  wellFormed reg ->
  onlyEvicts emit ->
  incl (connectedClients
          (snd (broadcastNotification notification emit (freshWorld reg))))
       reg
  /\ incl (connectedClients
             (snd (sendToUsers notification users emit (freshWorld reg))))
          reg
  /\ (preservesOn (JsMap.keys reg) emit ->
        connectedClients
          (snd (broadcastNotification notification emit (freshWorld reg)))
        = reg
        /\ connectedClients
             (snd (sendToUsers notification users emit (freshWorld reg)))
           = reg).
Proof.
  intros Hwf Hev. split; [|split].
  - unfold broadcastNotification.
    apply (forEachSocket_onlyEvicts emit _ _ Hev [] (freshWorld reg)).
  - unfold sendToUsers.
    apply (forEachUser_onlyEvicts emit _ _ Hev [] (freshWorld reg)).
  - intros Hp. split.
    + unfold broadcastNotification.
      apply (forEachSocket_preserves emit _ _ Hp [] (freshWorld reg)).
    + unfold sendToUsers.
      rewrite <- (wellFormed_socketIds reg Hwf) in Hp.
      apply (forEachUser_preserves emit _ users [] (freshWorld reg) Hp).
Qed.

Lemma delivery_leaves_registration_witness :
  wellFormed scenarioRegistry
  /\ onlyEvicts (mockEmitFunction ["c2"])
  /\ preservesOn (JsMap.keys scenarioRegistry) (mockEmitFunction ["c2"])
  /\ connectedClients
       (snd (sendToUsers scenarioNotification ["bob"; "alice"]
               (mockEmitFunction ["c2"]) (freshWorld scenarioRegistry)))
     = scenarioRegistry.
Proof.
  assert (Hwf : wellFormed scenarioRegistry) by wellFormed_by_evaluation.
  assert (Hev : onlyEvicts (mockEmitFunction ["c2"])).
  { intros sid dto reg. unfold mockEmitFunction.
    destruct (isIn sid ["c2"]); apply incl_refl. }
  assert (Hp : preservesOn (JsMap.keys scenarioRegistry)
                 (mockEmitFunction ["c2"])).
  { intros sid dto reg _. unfold mockEmitFunction.
    now destruct (isIn sid ["c2"]). }
  split; [exact Hwf|]. split; [exact Hev|]. split; [exact Hp|].
  exact (proj2 (proj2 (proj2
    (delivery_leaves_registration_to_the_primitive scenarioNotification
       (mockEmitFunction ["c2"]) scenarioRegistry ["bob"; "alice"]
       Hwf Hev)) Hp)).
Defined.

(* ================================================================= *)
(** ** Broadcasting through the gateway *)

Lemma filter_delete {V} (p : string * V -> bool) k (m : JsMap.t V) :
  filter p (JsMap.delete k m)
  = filter (fun e => negb (fst e =? k) && p e) m.
Proof.
  induction m as [|[k' v'] rest IH]; simpl; [reflexivity|].
  destruct (k' =? k); simpl; [exact IH|].
  destruct (p (k', v')); [now rewrite IH | exact IH].
Qed.

(** Deleting a list of keys one after the other keeps the entries whose
    key is not listed. *)
Lemma fold_delete_filter {V} (ds : list string) : forall (m : JsMap.t V),
  fold_left (fun r k => JsMap.delete k r) ds m
  = filter (fun e => negb (isIn (fst e) ds)) m.
Proof.
  induction ds as [|d rest IH]; intros m; simpl.
  - symmetry. now apply filter_all.
  - rewrite IH, filter_delete. apply filter_ext. intros e.
    unfold isIn. simpl. now rewrite negb_orb.
Qed.

Lemma sendToAll_world server notification w :
  snd (NotificationGateway.sendToAll server notification w)
  = snd (broadcastNotification notification
           (NotificationGateway.emitToSocket server "notification") w).
Proof.
  unfold NotificationGateway.sendToAll.
  now destruct (broadcastNotification _ _ w).
Qed.

Lemma broadcast_gateway server notification reg :
  fst (broadcastNotification notification
         (NotificationGateway.emitToSocket server "notification")
         (freshWorld reg))
  = JsMap.keys (liveEntries server reg)
  /\ connectedClients
       (snd (broadcastNotification notification
               (NotificationGateway.emitToSocket server "notification")
               (freshWorld reg)))
     = liveEntries server reg.
Proof.
  unfold broadcastNotification.
  change (connectedClients (freshWorld reg)) with reg.
  destruct (forEachSocket_gateway server "notification"
              (transformToWebSocketDto notification) (JsMap.keys reg) []
              (freshWorld reg)) as [Hres Hreg].
  simpl in Hres, Hreg. rewrite Hres, Hreg. unfold liveEntries. split.
  - unfold JsMap.keys. clear. induction reg as [|[k v] rest IH]; simpl;
      [reflexivity|].
    destruct (sendFails server k); simpl; now rewrite IH.
  - rewrite fold_delete_filter. apply filter_ext_in. intros [k v] Hin.
    simpl. f_equal. destruct (sendFails server k) eqn:E.
    + apply isIn_true_iff, filter_In. split; [|exact E].
      unfold JsMap.keys. change k with (fst (k, v)). now apply in_map.
    + destruct (isIn k (filter (sendFails server) (JsMap.keys reg))) eqn:F;
        [|reflexivity].
      apply isIn_true_iff, filter_In in F. destruct F as [_ F]. congruence.
Qed.

Lemma liveEntries_do_not_fail server reg sid :
  In sid (JsMap.keys (liveEntries server reg)) -> sendFails server sid = false.
Proof.
  unfold JsMap.keys, liveEntries. rewrite in_map_iff.
  intros [e [<- Hin]]. apply filter_In in Hin.
  now apply negb_true_iff.
Qed.

(** X10. [sendToAll] reconciles the registry with the server: after it,
    the registry consists exactly of the entries whose socket the server
    holds and can emit to, in their previous order, and the number of
    successful sends is the number of these entries. A broadcast that
    follows on the same server then succeeds on every attempt and removes
    nothing. *)
Theorem sendToAll_reconciles_registry server first second reg :
  connectedClients
    (snd (NotificationGateway.sendToAll server first (freshWorld reg)))
  = liveEntries server reg
  /\ successes
       (emitCalls
          (snd (NotificationGateway.sendToAll server first (freshWorld reg))))
     = getConnectedClientsCount (liveEntries server reg)
  /\ connectedClients
       (snd (NotificationGateway.sendToAll server second
               (freshWorld (liveEntries server reg))))
     = liveEntries server reg
  /\ Forall (fun c => call_ok c = true)
       (emitCalls
          (snd (NotificationGateway.sendToAll server second
                  (freshWorld (liveEntries server reg))))).
Proof.
  rewrite !sendToAll_world.
  destruct (broadcast_gateway server first reg) as [Hres Hreg].
  split; [exact Hreg|]. split; [|split].
  - unfold successes.
    rewrite <- (length_map call_socketId).
    pose proof (forEachSocket_result
                  (NotificationGateway.emitToSocket server "notification")
                  (transformToWebSocketDto first) (JsMap.keys reg) []
                  (freshWorld reg) eq_refl) as Hok.
    unfold broadcastNotification in Hres |- *.
    change (connectedClients (freshWorld reg)) with reg in Hres |- *.
    rewrite <- Hok, Hres. unfold getConnectedClientsCount.
    now rewrite size_keys.
  - destruct (emitToSocket_succeedsOn server "notification"
                (JsMap.keys (liveEntries server reg))
                (liveEntries_do_not_fail server reg)) as [_ Hp].
    unfold broadcastNotification.
    apply (forEachSocket_preserves _ _ _ Hp [] (freshWorld _)).
  - destruct (emitToSocket_succeedsOn server "notification"
                (JsMap.keys (liveEntries server reg))
                (liveEntries_do_not_fail server reg)) as [Hs _].
    unfold broadcastNotification.
    apply (forEachSocket_allOk _ _ _ Hs [] (freshWorld _)). constructor.
Qed.

(* ================================================================= *)
(** ** Targeted delivery through the gateway *)

Lemma wellFormed_filter (p : string * ConnectedClient -> bool) reg :
  wellFormed reg -> wellFormed (filter p reg).
Proof.
  intros [Hnd Hall]. split.
  - unfold JsMap.keys. now apply NoDup_map_filter.
  - apply Forall_forall. intros e He. apply filter_In in He.
    rewrite Forall_forall in Hall. now apply Hall.
Qed.

Lemma socketsOf_cons uid k client rest :
  socketsOf uid ((k, client) :: rest)
  = if userId client =? uid then socketId client :: socketsOf uid rest
    else socketsOf uid rest.
Proof.
  unfold socketsOf, getClientsByUserId. simpl.
  now destruct (userId client =? uid).
Qed.

Section GatewayTargets.
Variable server : Server.

Lemma liveEntries_after_eviction ds reg :
  (forall d, In d ds -> sendFails server d = true) ->
  liveEntries server (filter (fun e => negb (isIn (fst e) ds)) reg)
  = liveEntries server reg.
Proof.
  intros Hds. unfold liveEntries.
  induction reg as [|[k c] rest IH]; simpl; [reflexivity|].
  destruct (isIn k ds) eqn:E; simpl.
  - apply isIn_true_iff in E. rewrite (Hds k E). simpl. exact IH.
  - destruct (sendFails server k); simpl; now rewrite IH.
Qed.

Lemma socketsOf_liveEntries uid reg :
  wellFormed reg ->
  filter (fun sid => negb (sendFails server sid)) (socketsOf uid reg)
  = socketsOf uid (liveEntries server reg).
Proof.
  intros [_ Hall]. unfold liveEntries.
  induction reg as [|[k c] rest IH]; [reflexivity|].
  inversion Hall as [|? ? Hk Hrest]; subst. simpl in Hk.
  rewrite socketsOf_cons. cbn [filter fst].
  destruct (userId c =? uid) eqn:Eu.
  - cbn [filter]. rewrite Hk.
    destruct (sendFails server k); cbn [negb].
    + now apply IH.
    + rewrite socketsOf_cons, Eu, Hk. f_equal. now apply IH.
  - destruct (sendFails server k); cbn [negb].
    + now apply IH.
    + rewrite socketsOf_cons, Eu. now apply IH.
Qed.

Lemma socketsOf_all_live uid reg :
  (forall e, In e reg -> userId (snd e) = uid ->
     sendFails server (fst e) = false) ->
  socketsOf uid (liveEntries server reg) = socketsOf uid reg.
Proof.
  unfold liveEntries. induction reg as [|[k c] rest IH]; intros H;
    [reflexivity|].
  cbn [filter fst]. rewrite socketsOf_cons.
  assert (IH' : socketsOf uid
                  (filter (fun e => negb (sendFails server (fst e))) rest)
                = socketsOf uid rest).
  { apply IH. intros e He. apply H. now right. }
  destruct (userId c =? uid) eqn:Eu.
  - assert (Hk : sendFails server k = false)
      by (apply (H (k, c)); [now left | now apply String.eqb_eq]).
    rewrite Hk. cbn [negb]. rewrite socketsOf_cons, Eu. now rewrite IH'.
  - destruct (sendFails server k); cbn [negb]; [exact IH'|].
    rewrite socketsOf_cons, Eu. exact IH'.
Qed.

(** One user's turn: the sockets of the user that can be sent to are
    returned; the others are evicted, and nothing else changes. *)
Lemma forEachSocket_user_turn dto uid successful w :
  wellFormed (connectedClients w) ->
  let r := forEachSocket (NotificationGateway.emitToSocket server "notification")
             dto (socketsOf uid (connectedClients w)) successful w in
  fst r = successful ++ socketsOf uid (liveEntries server (connectedClients w))
  /\ wellFormed (connectedClients (snd r))
  /\ incl (connectedClients (snd r)) (connectedClients w)
  /\ liveEntries server (connectedClients (snd r))
     = liveEntries server (connectedClients w)
  /\ (forall e, In e (connectedClients (snd r)) -> userId (snd e) = uid ->
        sendFails server (fst e) = false).
Proof.
  intros Hwf r.
  destruct (forEachSocket_gateway server "notification" dto
              (socketsOf uid (connectedClients w)) successful w)
    as [Hres Hreg].
  fold r in Hres, Hreg. rewrite fold_delete_filter in Hreg.
  rewrite Hres, Hreg. split; [|split; [|split; [|split]]].
  - now rewrite socketsOf_liveEntries.
  - now apply wellFormed_filter.
  - intros e He. now apply filter_In in He.
  - apply liveEntries_after_eviction. intros d Hd.
    now apply filter_In in Hd.
  - intros [k c] He Hu. simpl in Hu |- *. apply filter_In in He.
    destruct He as [Hin Hkeep]. simpl in Hkeep.
    destruct (sendFails server k) eqn:E; [|reflexivity].
    exfalso. apply negb_true_iff in Hkeep.
    assert (Hk : In k (filter (sendFails server)
                         (socketsOf uid (connectedClients w)))).
    { apply filter_In. split; [|exact E]. apply socketsOf_client.
      exists c. split; [|split; [exact Hu|]].
      - unfold JsMap.values. change c with (snd (k, c)). now apply in_map.
      - destruct Hwf as [_ Hall]. rewrite Forall_forall in Hall.
        now apply (Hall (k, c)). }
    apply isIn_true_iff in Hk. congruence.
Qed.

(** The whole targeted loop through the gateway. *)
Lemma forEachUser_gateway dto users : forall successful w,
  wellFormed (connectedClients w) ->
  let r := forEachUser (NotificationGateway.emitToSocket server "notification")
             dto users successful w in
  fst r
  = successful
    ++ flat_map (fun uid => socketsOf uid
                              (liveEntries server (connectedClients w)))
         users
  /\ wellFormed (connectedClients (snd r))
  /\ incl (connectedClients (snd r)) (connectedClients w)
  /\ liveEntries server (connectedClients (snd r))
     = liveEntries server (connectedClients w)
  /\ (forall uid, In uid users ->
        socketsOf uid (connectedClients (snd r))
        = socketsOf uid (liveEntries server (connectedClients w))).
Proof.
  induction users as [|uid rest IH]; intros successful w Hwf; simpl.
  - rewrite app_nil_r.
    split; [reflexivity|]. split; [exact Hwf|]. split; [apply incl_refl|].
    split; [reflexivity | contradiction].
  - pose proof (forEachSocket_user_turn dto uid successful w Hwf) as Hturn.
    unfold socketsOf in Hturn at 1. simpl in Hturn.
    destruct (forEachSocket _ dto
                (map socketId (getClientsByUserId uid (connectedClients w)))
                successful w) as [s1 w1].
    simpl in Hturn. destruct Hturn as [Hs1 [Hwf1 [Hincl1 [Hlive1 Hclean]]]].
    destruct (IH s1 w1 Hwf1) as [Hres [Hwf2 [Hincl2 [Hlive2 Hrest]]]].
    split; [|split; [|split; [|split]]].
    + rewrite Hres, Hs1, Hlive1. now rewrite <- app_assoc.
    + exact Hwf2.
    + eapply incl_tran; eassumption.
    + now rewrite Hlive2.
    + intros u [<-|Hu].
      * rewrite <- Hlive1, <- Hlive2. symmetry. apply socketsOf_all_live.
        intros e He. apply Hclean. now apply Hincl2.
      * rewrite (Hrest u Hu). now rewrite Hlive1.
Qed.
End GatewayTargets.

(* ================================================================= *)
(** ** What the producer is told after a targeted delivery *)

Lemma fold_left_count {A} (f : A -> nat) (l : list A) : forall start,
  fold_left (fun count x => count + f x) l start = start + list_sum (map f l).
Proof.
  induction l as [|x rest IH]; intros start; simpl; [lia|].
  rewrite IH. lia.
Qed.

Lemma length_flat_map_sum {A B} (f : A -> list B) (l : list A) :
  List.length (flat_map f l) = list_sum (map (fun x => List.length (f x)) l).
Proof.
  induction l as [|x rest IH]; simpl; [reflexivity|].
  now rewrite length_app, IH.
Qed.

Lemma list_sum_filter_zero {A} (f : A -> nat) (p : A -> bool) (l : list A) :
  (forall x, In x l -> p x = false -> f x = 0) ->
  list_sum (map f (filter p l)) = list_sum (map f l).
Proof.
  induction l as [|x rest IH]; simpl; intros H; [reflexivity|].
  assert (IH' : list_sum (map f (filter p rest)) = list_sum (map f rest)).
  { apply IH. intros y Hy. apply H. now right. }
  destruct (p x) eqn:E; simpl; [now rewrite IH'|].
  rewrite (H x (or_introl eq_refl) E). exact IH'.
Qed.

(** The response to a request that names target users, on a non-empty
    registry. *)
Lemma receiveNotification_targeted uuid now server dto w users :
  getConnectedClientsCount (connectedClients w) <> 0 ->
  wh_targetUsers dto = Some users ->
  users <> [] ->
  fst (WebhookController.receiveNotification uuid now server dto w)
  = Returns
      {| resp_message := "Notification received and processed successfully";
         resp_status := "success";
         notificationId := Some uuid;
         deliveryInfo :=
           {| totalClients := getConnectedClientsCount (connectedClients w);
              deliveredTo :=
                list_sum
                  (map (fun uid =>
                          List.length
                            (getClientsByUserId uid
                               (connectedClients
                                  (snd (WebhookController.receiveNotification
                                          uuid now server dto w)))))
                     (filter (fun uid => isUserConnected uid (connectedClients w))
                        users));
              targetType := targeted;
              targetUsers := Some users |} |}
  /\ snd (WebhookController.receiveNotification uuid now server dto w)
     = snd (sendToUsers (processWebhookNotification uuid now dto) users
              (NotificationGateway.emitToSocket server "notification") w).
Proof.
  intros Hne Husers Hsome.
  assert (Hht : WebhookController.hasTargetUsers dto = true).
  { unfold WebhookController.hasTargetUsers. rewrite Husers.
    destruct users; [contradiction | reflexivity]. }
  apply Nat.eqb_neq in Hne.
  assert (Hw : snd (WebhookController.receiveNotification uuid now server dto w)
               = snd (sendToUsers (processWebhookNotification uuid now dto)
                        users
                        (NotificationGateway.emitToSocket server "notification")
                        w)).
  { rewrite receiveNotification_world, Hne, Hht. now rewrite Husers. }
  split; [|exact Hw]. rewrite Hw.
  unfold WebhookController.receiveNotification.
  rewrite Hne, Hht, Husers. unfold NotificationGateway.sendToUsers.
  destruct (sendToUsers _ users _ w) as [res w']. simpl.
  now rewrite fold_left_count.
Qed.

Lemma offline_user_has_no_sockets uid reg :
  isUserConnected uid reg = false -> socketsOf uid reg = [].
Proof.
  unfold isUserConnected, socketsOf.
  destruct (getClientsByUserId uid reg); [reflexivity | discriminate].
Qed.

(** Through the gateway, the count reported for a targeted request is the
    number of sockets of the listed users that could be sent to. *)
Lemma targeted_delivered_count uuid now server dto reg users :
  wellFormed reg ->
  getConnectedClientsCount reg <> 0 ->
  wh_targetUsers dto = Some users ->
  users <> [] ->
  exists resp,
    fst (WebhookController.receiveNotification uuid now server dto
           (freshWorld reg))
    = Returns resp
    /\ deliveredTo (deliveryInfo resp)
       = List.length
           (flat_map (fun uid => socketsOf uid (liveEntries server reg)) users)
    /\ fst (sendToUsers (processWebhookNotification uuid now dto) users
              (NotificationGateway.emitToSocket server "notification")
              (freshWorld reg))
       = flat_map (fun uid => socketsOf uid (liveEntries server reg)) users.
Proof.
  intros Hwf Hne Husers Hsome.
  destruct (receiveNotification_targeted uuid now server dto (freshWorld reg)
              users Hne Husers Hsome) as [Hresp Hworld].
  eexists. split; [exact Hresp|]. cbn [deliveryInfo deliveredTo].
  rewrite Hworld. unfold sendToUsers.
  destruct (forEachUser_gateway server
              (transformToWebSocketDto (processWebhookNotification uuid now dto))
              users [] (freshWorld reg) Hwf)
    as [Hres [_ [_ [_ Hafter]]]].
  cbn [connectedClients freshWorld] in Hres, Hafter.
  split; [|exact Hres].
  rewrite length_flat_map_sum.
  rewrite <- (list_sum_filter_zero
                (fun uid => List.length
                              (socketsOf uid (liveEntries server reg)))
                (fun uid => isUserConnected uid reg)).
  - f_equal. apply map_ext_in. intros uid Huid. apply filter_In in Huid.
    rewrite <- (Hafter uid (proj1 Huid)). unfold socketsOf.
    now rewrite length_map.
  - intros uid _ Hoff. rewrite <- socketsOf_liveEntries by exact Hwf.
    now rewrite (offline_user_has_no_sockets uid reg Hoff).
Qed.

(** X11. On a targeted request served through the gateway, the producer
    is told the truth about deliveries: the response is a success of type
    targeted that echoes the list of target users and the number of
    connections registered when the request arrived, and [deliveredTo] is
    exactly the number of sends that succeeded, which is the number of
    sockets of the listed users, counted once per occurrence of the user,
    that the server can emit to. *)
Theorem targeted_response_counts_successful_sends
    uuid now server dto reg users :
  wellFormed reg ->
  getConnectedClientsCount reg <> 0 ->
  wh_targetUsers dto = Some users ->
  users <> [] ->
  exists resp,
    fst (WebhookController.receiveNotification uuid now server dto
           (freshWorld reg))
    = Returns resp
    /\ resp_status resp = "success"
    /\ notificationId resp = Some uuid
    /\ targetType (deliveryInfo resp) = targeted
    /\ targetUsers (deliveryInfo resp) = Some users
    /\ totalClients (deliveryInfo resp) = getConnectedClientsCount reg
    /\ deliveredTo (deliveryInfo resp)
       = successes
           (emitCalls
              (snd (WebhookController.receiveNotification uuid now server dto
                      (freshWorld reg))))
    /\ deliveredTo (deliveryInfo resp)
       = List.length
           (flat_map (fun uid => socketsOf uid (liveEntries server reg)) users).
Proof.
  intros Hwf Hne Husers Hsome.
  destruct (targeted_delivered_count uuid now server dto reg users
              Hwf Hne Husers Hsome) as [resp [Hresp [Hcount Hres]]].
  destruct (receiveNotification_targeted uuid now server dto (freshWorld reg)
              users Hne Husers Hsome) as [Hshape Hworld].
  exists resp. split; [exact Hresp|].
  rewrite Hresp in Hshape. injection Hshape as Hshape.
  rewrite Hcount. rewrite Hshape. cbn.
  repeat (split; [reflexivity|]). split; [|reflexivity].
  rewrite Hworld. unfold successes.
  rewrite <- (length_map call_socketId), <- Hres.
  f_equal. unfold sendToUsers. now apply forEachUser_result.
Qed.

Lemma targeted_response_witness :
  wellFormed scenarioRegistry
  /\ getConnectedClientsCount scenarioRegistry <> 0
  /\ exists resp,
       fst (WebhookController.receiveNotification scenarioUuid scenarioNow
              (serverWith ["c1"; "c2"])
              (request (Some ["alice"; "carol"; "alice"]) None)
              (freshWorld scenarioRegistry))
       = Returns resp
       /\ deliveredTo (deliveryInfo resp) = 2.
Proof.
  assert (Hwf : wellFormed scenarioRegistry) by wellFormed_by_evaluation.
  assert (Hne : getConnectedClientsCount scenarioRegistry <> 0)
    by (simpl; lia).
  split; [exact Hwf|]. split; [exact Hne|].
  destruct (targeted_response_counts_successful_sends scenarioUuid scenarioNow
              (serverWith ["c1"; "c2"])
              (request (Some ["alice"; "carol"; "alice"]) None)
              scenarioRegistry ["alice"; "carol"; "alice"]
              Hwf Hne eq_refl ltac:(discriminate))
    as [resp [Hresp [_ [_ [_ [_ [_ [_ Hcount]]]]]]]].
  exists resp. split; [exact Hresp|]. rewrite Hcount. reflexivity.
Defined.

Lemma targets_NoDup reg users :
  wellFormed reg -> NoDup users ->
  NoDup (flat_map (fun uid => socketsOf uid reg) users).
Proof.
  intros Hwf. induction users as [|uid rest IH]; simpl; intros Hnd;
    [constructor|].
  inversion Hnd as [|? ? Hnot Hrest]; subst.
  apply NoDup_app; [now apply socketsOf_NoDup | now apply IH |].
  intros sid Hmine Hothers. apply in_flat_map in Hothers.
  destruct Hothers as [other [Hother Hsid]]. apply Hnot.
  now rewrite (socketsOf_same_user reg sid uid other Hwf Hmine Hsid).
Qed.

Lemma targets_registered reg users :
  incl (flat_map (fun uid => socketsOf uid reg) users) (registeredSockets reg).
Proof.
  intros sid Hin. apply in_flat_map in Hin. destruct Hin as [uid [_ Hsid]].
  now apply (socketsOf_registered uid reg).
Qed.

(** X12. When no user is listed twice, a targeted request never reports
    more deliveries than there were connections: [deliveredTo] is at most
    [totalClients]. *)
Theorem targeted_response_bounded uuid now server dto reg users :
  wellFormed reg ->
  getConnectedClientsCount reg <> 0 ->
  wh_targetUsers dto = Some users ->
  users <> [] ->
  NoDup users ->
  exists resp,
    fst (WebhookController.receiveNotification uuid now server dto
           (freshWorld reg))
    = Returns resp
    /\ deliveredTo (deliveryInfo resp) <= totalClients (deliveryInfo resp).
Proof.
  intros Hwf Hne Husers Hsome Hnd.
  destruct (targeted_delivered_count uuid now server dto reg users
              Hwf Hne Husers Hsome) as [resp [Hresp [Hcount _]]].
  destruct (receiveNotification_targeted uuid now server dto (freshWorld reg)
              users Hne Husers Hsome) as [Hshape _].
  exists resp. split; [exact Hresp|]. rewrite Hcount.
  rewrite Hresp in Hshape. injection Hshape as Hshape.
  rewrite Hshape. cbn [deliveryInfo totalClients connectedClients freshWorld].
  assert (Hlive : wellFormed (liveEntries server reg))
    by now apply wellFormed_filter.
  transitivity (List.length (registeredSockets (liveEntries server reg))).
  - apply NoDup_incl_length; [now apply targets_NoDup|].
    apply targets_registered.
  - unfold registeredSockets, JsMap.values, getConnectedClientsCount,
      JsMap.size, liveEntries.
    rewrite !length_map. apply filter_length_le.
Qed.

Lemma targeted_response_bounded_witness :
  wellFormed scenarioRegistry
  /\ NoDup ["bob"; "alice"]
  /\ exists resp,
       fst (WebhookController.receiveNotification scenarioUuid scenarioNow
              (serverWith ["c1"; "c2"])
              (request (Some ["bob"; "alice"]) None)
              (freshWorld scenarioRegistry))
       = Returns resp
       /\ deliveredTo (deliveryInfo resp) <= totalClients (deliveryInfo resp).
Proof.
  assert (Hwf : wellFormed scenarioRegistry) by wellFormed_by_evaluation.
  assert (Hne : getConnectedClientsCount scenarioRegistry <> 0)
    by (simpl; lia).
  assert (Hnd : NoDup ["bob"; "alice"])
    by (repeat constructor; simpl; intuition discriminate).
  split; [exact Hwf|]. split; [exact Hnd|].
  exact (targeted_response_bounded scenarioUuid scenarioNow
           (serverWith ["c1"; "c2"]) (request (Some ["bob"; "alice"]) None)
           scenarioRegistry ["bob"; "alice"]
           Hwf Hne eq_refl ltac:(discriminate) Hnd).
Defined.

Lemma forEachUser_offline emit dto users : forall successful w,
  (forall uid, In uid users ->
     isUserConnected uid (connectedClients w) = false) ->
  forEachUser emit dto users successful w = (successful, w).
Proof.
  induction users as [|uid rest IH]; intros successful w Hoff; simpl;
    [reflexivity|].
  pose proof (offline_user_has_no_sockets uid (connectedClients w)
                (Hoff uid (or_introl eq_refl))) as Hnone.
  unfold socketsOf in Hnone. rewrite Hnone. simpl.
  apply IH. intros u Hu. apply Hoff. now right.
Qed.

(** X13. Target users without any connection are not an error: when none
    of the listed users is connected (while other connections exist), no
    send is attempted, the registry is left as it was, and the response is
    a success of type targeted with [deliveredTo = 0] that echoes the
    list. *)
Theorem targeted_offline_users_not_an_error uuid now server dto w users :
  getConnectedClientsCount (connectedClients w) <> 0 ->
  wh_targetUsers dto = Some users ->
  users <> [] ->
  (forall uid, In uid users ->
     isUserConnected uid (connectedClients w) = false) ->
  WebhookController.receiveNotification uuid now server dto w
  = (Returns
       {| resp_message := "Notification received and processed successfully";
          resp_status := "success";
          notificationId := Some uuid;
          deliveryInfo :=
            {| totalClients := getConnectedClientsCount (connectedClients w);
               deliveredTo := 0;
               targetType := targeted;
               targetUsers := Some users |} |},
     w).
Proof.
  intros Hne Husers Hsome Hoff.
  destruct (receiveNotification_targeted uuid now server dto w users
              Hne Husers Hsome) as [Hresp Hworld].
  assert (Hnone : filter (fun uid => isUserConnected uid (connectedClients w))
                    users = []).
  { apply filter_none. exact Hoff. }
  rewrite Hnone in Hresp. simpl in Hresp.
  unfold sendToUsers in Hworld. rewrite forEachUser_offline in Hworld
    by exact Hoff. simpl in Hworld.
  destruct (WebhookController.receiveNotification uuid now server dto w)
    as [out w'].
  simpl in Hresp, Hworld. now subst.
Qed.

Lemma targeted_offline_users_witness :
  getConnectedClientsCount scenarioRegistry <> 0
  /\ snd (WebhookController.receiveNotification scenarioUuid scenarioNow
            (serverWith []) (request (Some ["carol"; "dave"]) None)
            (freshWorld scenarioRegistry))
     = freshWorld scenarioRegistry.
Proof.
  assert (Hne : getConnectedClientsCount scenarioRegistry <> 0)
    by (simpl; lia).
  split; [exact Hne|].
  rewrite (targeted_offline_users_not_an_error scenarioUuid scenarioNow
             (serverWith []) (request (Some ["carol"; "dave"]) None)
             (freshWorld scenarioRegistry) ["carol"; "dave"]
             Hne eq_refl ltac:(discriminate)).
  - reflexivity.
  - simpl. intros uid [<-|[<-|[]]]; reflexivity.
Defined.

(* ================================================================= *)
(** ** Connecting and disconnecting *)

Lemma substring_whole s : String.substring 0 (String.length s) s = s.
Proof. induction s as [|c rest IH]; simpl; [reflexivity | now rewrite IH]. Qed.

(** X14. How [extractToken] reads the handshake. A header
    [Bearer <token>] with a non-empty token yields that token. A non-empty
    authorization header hides [auth.token] altogether; without such a
    header, [auth.token] is read in its place and by the same rules. A
    non-empty value that does not start with [Bearer ] is taken as the
    token as it stands. *)
Theorem extractToken_reads_the_handshake cid header token :
  (forall t, t <> "" ->
     NotificationGateway.extractToken
       {| client_id := cid;
          handshake := {| headers_authorization := Some ("Bearer " ++ t)%string;
                          auth_token := token |} |}
     = Some t)
  /\ (truthy header = true ->
        NotificationGateway.extractToken
          {| client_id := cid;
             handshake := {| headers_authorization := header;
                             auth_token := token |} |}
        = NotificationGateway.extractToken
            {| client_id := cid;
               handshake := {| headers_authorization := header;
                               auth_token := None |} |})
  /\ (truthy header = false ->
        NotificationGateway.extractToken
          {| client_id := cid;
             handshake := {| headers_authorization := header;
                             auth_token := token |} |}
        = NotificationGateway.extractToken
            {| client_id := cid;
               handshake := {| headers_authorization := token;
                               auth_token := None |} |})
  /\ (forall raw, raw <> "" -> String.prefix "Bearer " raw = false ->
        NotificationGateway.extractToken
          {| client_id := cid;
             handshake := {| headers_authorization := Some raw;
                             auth_token := token |} |}
        = Some raw).
Proof.
  split; [|split; [|split]].
  - intros t Ht.
    assert (Htruthy : truthy (Some ("Bearer " ++ t)%string) = true)
      by reflexivity.
    assert (Hprefix : String.prefix "Bearer " ("Bearer " ++ t)%string = true)
      by (simpl; now destruct t).
    assert (Hsub : String.substring 7
                     (String.length ("Bearer " ++ t)%string - 7)
                     ("Bearer " ++ t)%string = t).
    { simpl. rewrite Nat.sub_0_r. apply substring_whole. }
    unfold NotificationGateway.extractToken.
    cbn [handshake headers_authorization auth_token].
    cbv zeta. rewrite Htruthy. cbn [negb andb]. rewrite !Htruthy.
    cbn [andb]. rewrite Hprefix, Hsub.
    unfold truthy.
    destruct (String.eqb_spec t ""); [contradiction | reflexivity].
  - intros Hh. unfold NotificationGateway.extractToken.
    cbn [handshake headers_authorization auth_token].
    rewrite Hh. reflexivity.
  - intros Hh. unfold NotificationGateway.extractToken.
    cbn [handshake headers_authorization auth_token].
    rewrite Hh. cbn [negb andb truthy].
    destruct token as [t|]; cbn [truthy].
    + destruct (String.eqb_spec t "") as [->|Hne]; cbn [negb andb].
      * destruct header as [h|]; [|reflexivity].
        unfold truthy in Hh. apply negb_false_iff, String.eqb_eq in Hh.
        now subst h.
      * reflexivity.
    + destruct header as [h|]; [|reflexivity].
      unfold truthy in Hh. apply negb_false_iff, String.eqb_eq in Hh.
      now subst h.
  - intros raw Hraw Hprefix. unfold NotificationGateway.extractToken.
    cbn [handshake headers_authorization auth_token].
    assert (Htruthy : truthy (Some raw) = true).
    { unfold truthy. destruct (String.eqb_spec raw ""); [contradiction|].
      reflexivity. }
    cbv zeta.
    repeat (progress (rewrite ?Htruthy, ?Hprefix; cbn [negb andb])).
    reflexivity.
Qed.

Lemma extractToken_reads_the_handshake_witness :
  NotificationGateway.extractToken (clientWith (Some "Bearer good-token")
                                      (Some "other"))
  = Some "good-token"
  /\ NotificationGateway.extractToken (clientWith (Some "") (Some "Bearer x"))
     = NotificationGateway.extractToken (clientWith (Some "Bearer x") None)
  /\ NotificationGateway.extractToken (clientWith (Some "raw-token") None)
     = Some "raw-token".
Proof.
  split; [|split].
  - apply (proj1 (extractToken_reads_the_handshake "c9" None (Some "other"))).
    discriminate.
  - apply (proj1 (proj2 (proj2
      (extractToken_reads_the_handshake "c9" (Some "") (Some "Bearer x"))))).
    reflexivity.
  - apply (proj2 (proj2 (proj2
      (extractToken_reads_the_handshake "c9" None None)))).
    + discriminate.
    + reflexivity.
Defined.

(** X15. Connecting and then disconnecting leaves no trace: for a client
    whose socket id is not yet registered, [handleDisconnect] after
    [handleConnection] gives back the registry as it was, whether the
    connection was authenticated or rejected. *)
Theorem connect_then_disconnect_restores_registry verify now client reg :
  ~ In (client_id client) (JsMap.keys reg) ->
  NotificationGateway.handleDisconnect client
    (snd (NotificationGateway.handleConnection verify now client reg))
  = reg.
Proof.
  intros Hnew.
  assert (Hsame : removeClient (client_id client) reg = reg).
  { rewrite removeClient_delete. now apply delete_absent. }
  unfold NotificationGateway.handleDisconnect,
    NotificationGateway.handleConnection.
  destruct (NotificationGateway.extractToken client) as [token|];
    [|exact Hsame].
  destruct (verify token) as [[payload|]|e]; try exact Hsame.
  destruct (jwt_id payload) as [uid|]; [|exact Hsame].
  destruct (truthy (Some uid)); [|exact Hsame].
  cbn [snd]. rewrite removeClient_delete. unfold addClient.
  rewrite delete_set. now apply delete_absent.
Qed.

Lemma connect_then_disconnect_witness :
  ~ In "c9" (JsMap.keys scenarioRegistry)
  /\ NotificationGateway.handleDisconnect
       (clientWith (Some "Bearer good-token") None)
       (snd (NotificationGateway.handleConnection verifyAlice scenarioNow
               (clientWith (Some "Bearer good-token") None) scenarioRegistry))
     = scenarioRegistry.
Proof.
  assert (Hnew : ~ In "c9" (JsMap.keys scenarioRegistry))
    by (simpl; intuition discriminate).
  split; [exact Hnew|].
  exact (connect_then_disconnect_restores_registry verifyAlice scenarioNow
           (clientWith (Some "Bearer good-token") None) scenarioRegistry Hnew).
Defined.



(* ================================================================= *)
(** ** The webhook guard *)

Lemma split_nonempty sep s : split sep s <> [].
Proof.
  destruct s as [|c rest]; simpl; [discriminate|].
  destruct (Ascii.eqb c sep); [discriminate|].
  destruct (split sep rest); discriminate.
Qed.

Lemma split_lacks sep s : lacks sep s = true -> split sep s = [s].
Proof.
  induction s as [|c rest IH]; simpl; [reflexivity|].
  destruct (Ascii.eqb c sep); simpl; [discriminate|].
  intros H. now rewrite IH.
Qed.

Lemma split_at_separator sep a b :
  lacks sep a = true ->
  split sep (a ++ String sep b)%string = a :: split sep b.
Proof.
  induction a as [|c rest IH]; simpl.
  - intros _. now rewrite Ascii.eqb_refl.
  - destruct (Ascii.eqb c sep); simpl; [discriminate|].
    intros H. now rewrite IH.
Qed.

Lemma split_first_piece sep : forall s a l,
  split sep s = a :: l ->
  lacks sep a = true
  /\ match l with
     | [] => s = a
     | _ :: _ => exists s', s = (a ++ String sep s')%string /\ split sep s' = l
     end.
Proof.
  induction s as [|c rest IH]; simpl; intros a l H.
  - injection H as <- <-. now split.
  - destruct (Ascii.eqb_spec c sep) as [->|Hne].
    + injection H as <- <-. split; [reflexivity|].
      destruct (split sep rest) as [|p ps] eqn:E.
      * now apply split_nonempty in E.
      * exists rest. now split.
    + destruct (split sep rest) as [|p ps] eqn:E.
      * now apply split_nonempty in E.
      * injection H as <- <-. destruct (IH p ps eq_refl) as [Hp Hrest].
        split.
        -- simpl. apply Ascii.eqb_neq in Hne. now rewrite Hne, Hp.
        -- destruct ps as [|q qs].
           ++ now subst rest.
           ++ destruct Hrest as [s' [-> Hs']]. now exists s'.
Qed.

Lemma extractTokenFromHeader_some header token :
  WebhookAuthGuard.extractTokenFromHeader header = Some token ->
  token <> "" /\ lacks " " token = true
  /\ (header = ("Bearer " ++ token)%string
      \/ exists tail, header = ("Bearer " ++ token ++ String " " tail)%string).
Proof.
  unfold WebhookAuthGuard.extractTokenFromHeader.
  destruct (split " " header) as [|type [|tok rest]] eqn:E; try discriminate.
  destruct (String.eqb_spec type "Bearer") as [->|]; [|discriminate].
  cbn [negb orb]. unfold truthy.
  destruct (String.eqb_spec tok "") as [|Hne]; [discriminate|].
  cbn [negb]. intros [= <-].
  destruct (split_first_piece " " header "Bearer" (tok :: rest) E)
    as [_ [s' [Hheader Hs']]].
  destruct (split_first_piece " " s' tok rest Hs') as [Hlacks Hrest].
  split; [exact Hne|]. split; [exact Hlacks|].
  destruct rest as [|q qs].
  - left. now subst.
  - right. destruct Hrest as [tail [-> _]]. now exists tail.
Qed.

Lemma extractTokenFromHeader_bearer token tail :
  token <> "" -> lacks " " token = true ->
  WebhookAuthGuard.extractTokenFromHeader ("Bearer " ++ token)%string
  = Some token
  /\ WebhookAuthGuard.extractTokenFromHeader
       ("Bearer " ++ token ++ String " " tail)%string
     = Some token.
Proof.
  intros Hne Hlacks. unfold WebhookAuthGuard.extractTokenFromHeader.
  change ("Bearer " ++ token)%string
    with ("Bearer" ++ String " " token)%string.
  change ("Bearer " ++ token ++ String " " tail)%string
    with ("Bearer" ++ String " " (token ++ String " " tail))%string.
  rewrite !split_at_separator by reflexivity.
  rewrite split_lacks by exact Hlacks.
  rewrite split_at_separator by exact Hlacks.
  assert (Htruthy : truthy (Some token) = true).
  { unfold truthy. destruct (String.eqb_spec token ""); [contradiction|].
    reflexivity. }
  destruct (split " " tail); now rewrite Htruthy.
Qed.

(** X17. [canActivate] lets a request through exactly when a webhook
    token is configured, is not empty and contains no space, and the
    authorization header is [Bearer <that token>], alone or followed by a
    space and anything else (only the first two space-separated pieces are
    read). In every other case it throws; it never returns false. *)
Theorem canActivate_accepts_exactly_the_configured_token webhookToken authHeader :
  (WebhookAuthGuard.canActivate webhookToken authHeader = Returns true
   <-> exists token header,
         webhookToken = Some token /\ authHeader = Some header
         /\ token <> "" /\ lacks " " token = true
         /\ (header = ("Bearer " ++ token)%string
             \/ exists tail,
                  header = ("Bearer " ++ token ++ String " " tail)%string))
  /\ WebhookAuthGuard.canActivate webhookToken authHeader <> Returns false.
Proof.
  split; [split|].
  - unfold WebhookAuthGuard.canActivate.
    destruct authHeader as [header|]; [|discriminate].
    destruct (truthy (Some header)); [|discriminate]. cbn [negb].
    destruct (WebhookAuthGuard.extractTokenFromHeader header) as [token|]
      eqn:E; [|discriminate].
    destruct webhookToken as [configured|]; [|discriminate].
    destruct (truthy (Some configured)); [|discriminate]. cbn [negb].
    destruct (String.eqb_spec token configured) as [->|]; [|discriminate].
    intros _. exists configured, header.
    destruct (extractTokenFromHeader_some header configured E)
      as [Hne [Hlacks Hform]].
    repeat split; assumption.
  - intros [token [header [-> [-> [Hne [Hlacks Hform]]]]]].
    assert (Htoken : truthy (Some token) = true).
    { unfold truthy. destruct (String.eqb_spec token ""); [contradiction|].
      reflexivity. }
    assert (Hextract : WebhookAuthGuard.extractTokenFromHeader header
                       = Some token).
    { destruct Hform as [->|[tail ->]].
      - exact (proj1 (extractTokenFromHeader_bearer token "" Hne Hlacks)).
      - exact (proj2 (extractTokenFromHeader_bearer token tail Hne Hlacks)). }
    assert (Hheader : truthy (Some header) = true)
      by (destruct Hform as [->|[tail ->]]; reflexivity).
    unfold WebhookAuthGuard.canActivate.
    rewrite Hheader, Hextract, Htoken. cbn [negb].
    now rewrite String.eqb_refl.
  - unfold WebhookAuthGuard.canActivate.
    destruct authHeader as [header|]; [|discriminate].
    destruct (truthy (Some header)); [|discriminate]. cbn [negb].
    destruct (WebhookAuthGuard.extractTokenFromHeader header) as [token|];
      [|discriminate].
    destruct webhookToken as [configured|]; [|discriminate].
    destruct (truthy (Some configured)); [|discriminate]. cbn [negb].
    destruct (token =? configured); discriminate.
Qed.

Lemma canActivate_witness :
  WebhookAuthGuard.canActivate (Some "s3cret") (Some "Bearer s3cret")
  = Returns true.
Proof.
  apply (proj1 (canActivate_accepts_exactly_the_configured_token
                  (Some "s3cret") (Some "Bearer s3cret"))).
  exists "s3cret", "Bearer s3cret".
  repeat split; try reflexivity; try discriminate. now left.
Defined.

(* ================================================================= *)
(** ** The registry invariant *)

Lemma receiveNotification_wellFormed uuid now server dto reg :
  wellFormed reg ->
  wellFormed
    (connectedClients
       (snd (WebhookController.receiveNotification uuid now server dto
               (freshWorld reg)))).
Proof.
  intros Hwf. rewrite receiveNotification_world.
  destruct (Nat.eqb _ 0); [exact Hwf|].
  destruct (WebhookController.hasTargetUsers dto).
  - unfold sendToUsers.
    now apply (forEachUser_gateway server _ _ [] (freshWorld reg)).
  - destruct (broadcast_gateway server (processWebhookNotification uuid now dto)
                reg) as [_ ->].
    now apply wellFormed_filter.
Qed.

(** X18. The registry keeps its shape under everything the service, the
    gateway and the ingress endpoint do to it: socket ids stay distinct and
    every client stays stored under its own socket id after [addClient],
    [removeClient], [handleConnection], [handleDisconnect] and a whole
    [receiveNotification] with its evictions. The empty registry has this
    shape, so every registry reached from it has. *)
Theorem registry_shape_is_invariant
    verify now client server uuid dto uid sid reg :
  wellFormed reg ->
  wellFormed (JsMap.empty ConnectedClient)
  /\ wellFormed (addClient now uid sid reg)
  /\ wellFormed (removeClient sid reg)
  /\ wellFormed (snd (NotificationGateway.handleConnection verify now client reg))
  /\ wellFormed (NotificationGateway.handleDisconnect client reg)
  /\ wellFormed
       (connectedClients
          (snd (WebhookController.receiveNotification uuid now server dto
                  (freshWorld reg)))).
Proof.
  intros Hwf. split; [apply wellFormed_empty|].
  split; [now apply wellFormed_addClient|].
  split; [now apply wellFormed_removeClient|].
  split; [now apply handleConnection_wellFormed|].
  split; [now apply handleDisconnect_wellFormed|].
  now apply receiveNotification_wellFormed.
Qed.

Lemma registry_shape_witness :
  wellFormed scenarioRegistry
  /\ wellFormed
       (connectedClients
          (snd (WebhookController.receiveNotification scenarioUuid scenarioNow
                  (serverWith ["c1"]) (request (Some ["alice"; "bob"]) None)
                  (freshWorld scenarioRegistry)))).
Proof.
  assert (Hwf : wellFormed scenarioRegistry) by wellFormed_by_evaluation.
  split; [exact Hwf|].
  exact (proj2 (proj2 (proj2 (proj2 (proj2
    (registry_shape_is_invariant verifyAlice scenarioNow
       (clientWith None None) (serverWith ["c1"]) scenarioUuid
       (request (Some ["alice"; "bob"]) None) "alice" "c1"
       scenarioRegistry Hwf)))))).
Defined.

(** X19. Looking up what the registry lists gives it back: on a registry
    as the service builds it, every client that [getClientsByUserId]
    returns for a user carries that user's id and is what its own socket
    id resolves to; the socket ids of one user's clients are distinct, and
    no socket id is listed under two users. *)
Theorem getClientsByUserId_round_trip uid reg :
  wellFormed reg ->
  (forall client, In client (getClientsByUserId uid reg) ->
     userId client = uid
     /\ JsMap.get (socketId client) reg = Some client)
  /\ NoDup (socketsOf uid reg)
  /\ (forall other sid, In sid (socketsOf uid reg) ->
        In sid (socketsOf other reg) -> other = uid).
Proof.
  intros Hwf. split; [|split].
  - intros client Hin. unfold getClientsByUserId in Hin.
    apply filter_In in Hin. destruct Hin as [Hin Hu].
    split; [now apply String.eqb_eq | now apply registered_client].
  - now apply socketsOf_NoDup.
  - intros other sid Hmine Hother.
    now apply (socketsOf_same_user reg sid other uid).
Qed.

Lemma getClientsByUserId_round_trip_witness :
  wellFormed scenarioRegistry
  /\ NoDup (socketsOf "alice" scenarioRegistry).
Proof.
  assert (Hwf : wellFormed scenarioRegistry) by wellFormed_by_evaluation.
  split; [exact Hwf|].
  exact (proj1 (proj2
    (getClientsByUserId_round_trip "alice" scenarioRegistry Hwf))).
Defined.

(* ================================================================= *)
(** ** Repeated identities in the target list, concluded *)



